(** * The interview signalling backend (backend/server.py)

    A shallow embedding of the session and connection coordination layer:
    the connection manager, the session endpoints, the persisted-message
    endpoint and the live-channel endpoint, followed by the properties of
    the specification that concern them.

    Python objects that live on the heap and are shared by reference (the
    [WebSocket] objects held both by a running endpoint and by the
    manager's dictionary) are kept in a store indexed by handles.  Every
    coroutine is embedded as a computation in a state-and-exception monad
    over that store; one request, or one received frame, runs without
    interleaving. *)

From Stdlib Require Import ZArith NArith String Ascii List Bool Lia.
From stdpp Require Import base option list strings gmap fin_maps.

(** ** Values exchanged with the outside world *)

(** What [json.loads] can return.  A Python float is kept by the two things
    this program can observe of it: whether it is non-zero (its truth
    value) and its printed form. *)
#[local] Set Warnings "-register-all".

Inductive json : Type :=
| JNull
| JBool (b : bool)
| JInt (z : Z)
| JFloat (nonzero : bool) (repr : string)
| JStr (s : string)
| JArr (elements : list json)
| JObj (items : list (string * json)).

(** A text frame, up to JSON decoding: either a text that [json.loads]
    rejects, or a text that denotes the value [value] (for [json.loads]
    the text it accepts, for [json.dumps] the text it produces). *)
Inductive text : Type :=
| NotJson (raw : string)
| Json (value : json).

(** [datetime] values, as a count of microseconds. *)
Definition datetime : Type := Z.

(** The exceptions that can travel through the modelled code. *)
Inductive exn : Type :=
| HTTPException (status_code : Z) (detail : string)
| WebSocketDisconnect
| JSONDecodeError
| AttributeError
| TypeError
| WriteError
| OverflowError
| NotRouted.

(** Python's truth value of a decoded JSON value ([if session_id:]). *)
Definition truthy (v : json) : bool :=
  match v with
  | JNull => false
  | JBool b => b
  | JInt z => negb (z =? 0)%Z
  | JFloat nonzero _ => nonzero
  | JStr s => negb (String.eqb s "")
  | JArr elements => match elements with [] => false | _ => true end
  | JObj items => match items with [] => false | _ => true end
  end.

(** Truth value of an [Optional[str]] field read with [dict.get]. *)
Definition truthy_str (o : option string) : bool :=
  match o with
  | Some s => negb (String.eqb s "")
  | None => false
  end.

(** The items of a [dict] (its keys are distinct), looked up by key. *)
Fixpoint dict_get (key : string) (items : list (string * json)) : option json :=
  match items with
  | [] => None
  | (k, v) :: rest => if String.eqb k key then Some v else dict_get key rest
  end.

(** [value == "literal"] for a decoded JSON value. *)
Definition py_eq_str (v : json) (literal : string) : bool :=
  match v with
  | JStr s => String.eqb s literal
  | _ => false
  end.

(** ** Models (pydantic) *)

Record User : Type := {
  user_id : string;
  name : string;
  role : string;
  user_session_id : option string;
  user_created_at : datetime }.

Record UserCreate : Type := {
  uc_name : string;
  uc_role : string }.

Record Message : Type := {
  msg_session_id : string;
  sender_id : string;
  sender_role : string;
  message_type : string;
  content : string;
  timestamp : datetime }.

Record InterviewSession : Type := {
  session_id : string;
  candidate_id : option string;
  hr_id : option string;
  status : string;
  sign_language : string;
  created_at : datetime;
  messages : list Message }.

Record SessionCreate : Type := {
  sc_sign_language : string }.

(** ** Live channels *)

Inductive WebSocketState : Type := CONNECTING | CONNECTED | DISCONNECTED.

Global Instance WebSocketState_eq_dec : EqDecision WebSocketState.
Proof. solve_decision. Defined.

(** A [WebSocket] object: the state of the client side and the texts
    handed to [send_text] so far, oldest first. *)
Record WebSocket : Type := {
  client_state : WebSocketState;
  sent : list text }.

Definition new_websocket : WebSocket :=
  {| client_state := CONNECTING; sent := [] |}.

(** What the endpoint's [receive_text] meets next on its channel: the
    client has gone (cleanly or not), or a text frame has arrived. *)
Inductive frame : Type :=
| Disconnect
| Text (data : text).

(** ** The process state *)

(** [db.interview_sessions] and [db.users] are collections in insertion
    order; [manager.active_connections] maps an identity to a handle of
    the heap [websockets]. *)
Record World : Type := {
  interview_sessions : list InterviewSession;
  users : list User;
  active_connections : gmap string nat;
  websockets : gmap nat WebSocket }.

Definition initial_world : World :=
  {| interview_sessions := []; users := []; active_connections := ∅; websockets := ∅ |}.

Definition set_interview_sessions (l : list InterviewSession) (w : World) : World :=
  {| interview_sessions := l; users := users w;
     active_connections := active_connections w; websockets := websockets w |}.

Definition set_users (l : list User) (w : World) : World :=
  {| interview_sessions := interview_sessions w; users := l;
     active_connections := active_connections w; websockets := websockets w |}.

Definition set_active_connections (m : gmap string nat) (w : World) : World :=
  {| interview_sessions := interview_sessions w; users := users w;
     active_connections := m; websockets := websockets w |}.

Definition set_websockets (h : gmap nat WebSocket) (w : World) : World :=
  {| interview_sessions := interview_sessions w; users := users w;
     active_connections := active_connections w; websockets := h |}.

(** The object behind a handle; an object nobody touched yet is as its
    constructor leaves it. *)
Definition websocket_at (w : World) (handle : nat) : WebSocket :=
  default new_websocket (websockets w !! handle).

(** ** Computations *)

Inductive result (A : Type) : Type :=
| Return (a : A)
| Raise (e : exn).
Arguments Return {A} a.
Arguments Raise {A} e.

Definition M (A : Type) : Type := World -> result A * World.

Definition ret {A} (a : A) : M A := fun w => (Return a, w).

Definition raise {A} (e : exn) : M A := fun w => (Raise e, w).

Definition bind {A B} (c : M A) (k : A -> M B) : M B :=
  fun w =>
    match c w with
    | (Return a, w') => k a w'
    | (Raise e, w') => (Raise e, w')
    end.

Notation "'let*' x ':=' c 'in' k" := (bind c (fun x => k))
  (at level 10, x name, c at level 100, k at level 200).
Notation "c ;; k" := (bind c (fun _ => k))
  (at level 100, k at level 200, right associativity).

Definition read {A} (f : World -> A) : M A := fun w => (Return (f w), w).

Definition modify (f : World -> World) : M unit := fun w => (Return tt, f w).

(** [try: body except <caught>: handler]; [handler e] is [None] for an
    exception the clause does not name, which then propagates. *)
Definition try_except {A} (body : M A) (handler : exn -> option (M A)) : M A :=
  fun w =>
    match body w with
    | (Return a, w') => (Return a, w')
    | (Raise e, w') =>
        match handler e with
        | Some h => h w'
        | None => (Raise e, w')
        end
    end.

(** [for x in l: body x] *)
Fixpoint for_each {A} (l : list A) (body : A -> M unit) : M unit :=
  match l with
  | [] => ret tt
  | x :: rest => body x ;; for_each rest body
  end.

(** ** External collaborators *)

(** The document store, with its driver, decides which stored [session_id]
    (always a string) a query value selects.  A string selects the equal
    string; a value that is not a string and is false in Python ([null],
    [false], zero, an empty array or object) selects no string.  What other
    values select (operator documents among them) is left to the store.

    It also decides which query values it refuses: [query_error q] is the
    exception [find_one] raises for the value [q], if any (an integer that
    does not fit in eight bytes, for one, is an [OverflowError] of the
    driver).  A string is never refused (a [str] without a UTF-8 encoding,
    which only unpaired surrogate escapes give, is not among the values of
    [json]), and a value that is refused selects nothing.

    Last, the store decides whether an update with an empty [$set] is an
    error (servers before 5.0) or changes nothing. *)
Class Store : Type := {
  bson_match : json -> string -> bool;
  bson_match_str : forall s t, bson_match (JStr s) t = String.eqb s t;
  bson_match_falsy : forall q t,
    truthy q = false -> (forall s, q <> JStr s) -> bson_match q t = false;
  query_error : json -> option exn;
  query_error_str : forall s, query_error (JStr s) = None;
  bson_match_accepted : forall q t, bson_match q t = true -> query_error q = None;
  rejects_empty_set : bool }.

(** [str(uuid.uuid4())] for the 128-bit value [u]: 32 hexadecimal digits in
    groups of 8, 4, 4, 4 and 12. *)
Definition hex_digit (n : N) : ascii :=
  match n with
  | 0%N => "0" | 1%N => "1" | 2%N => "2" | 3%N => "3"
  | 4%N => "4" | 5%N => "5" | 6%N => "6" | 7%N => "7"
  | 8%N => "8" | 9%N => "9" | 10%N => "a" | 11%N => "b"
  | 12%N => "c" | 13%N => "d" | 14%N => "e" | _ => "f"
  end%char.

Definition nibble (u : N) (i : N) : ascii :=
  hex_digit (N.land (N.shiftr u (4 * i)) 15).

Definition str_uuid (u : N) : string :=
  string_of_list_ascii
    ([nibble u 31; nibble u 30; nibble u 29; nibble u 28;
      nibble u 27; nibble u 26; nibble u 25; nibble u 24; "-"%char;
      nibble u 23; nibble u 22; nibble u 21; nibble u 20; "-"%char;
      nibble u 19; nibble u 18; nibble u 17; nibble u 16; "-"%char;
      nibble u 15; nibble u 14; nibble u 13; nibble u 12; "-"%char;
      nibble u 11; nibble u 10; nibble u 9; nibble u 8;
      nibble u 7; nibble u 6; nibble u 5; nibble u 4;
      nibble u 3; nibble u 2; nibble u 1; nibble u 0]).

(** ** Starlette's WebSocket, as far as the server uses it

    [send_text] hands a text to the transport of the channel; failures of
    the transport itself are outside the model. *)

Definition update_websocket (handle : nat) (f : WebSocket -> WebSocket) : M unit :=
  modify (fun w => set_websockets (<[handle := f (websocket_at w handle)]> (websockets w)) w).

Definition accept (websocket : nat) : M unit :=
  update_websocket websocket
    (fun ws => {| client_state := CONNECTED; sent := sent ws |}).

Definition send_text (websocket : nat) (data : text) : M unit :=
  update_websocket websocket
    (fun ws => {| client_state := client_state ws; sent := sent ws ++ [data] |}).

Definition receive_text (websocket : nat) (f : frame) : M text :=
  match f with
  | Disconnect =>
      update_websocket websocket
        (fun ws => {| client_state := DISCONNECTED; sent := sent ws |}) ;;
      raise WebSocketDisconnect
  | Text data => ret data
  end.

(** ** The [json] module and [dict.get] *)

Definition json_loads (data : text) : M json :=
  match data with
  | NotJson _ => raise JSONDecodeError
  | Json value => ret value
  end.

(** [message_data.get(key)]: only a [dict] has [get]; a missing key gives
    [None]. *)
Definition py_get (message_data : json) (key : string) : M json :=
  match message_data with
  | JObj items => ret (default JNull (dict_get key items))
  | _ => raise AttributeError
  end.

(** The two kinds of [dict] handed to [send_to_session]: [message.dict()]
    of the persisted-message endpoint, whose [timestamp] is a [datetime]
    object, and the decoded envelope of the live channel. *)
Inductive payload : Type :=
| MessageDict (message_dict : Message)
| Envelope (message_data : json).

(** [json.dumps] has no encoding for a [datetime]. *)
Definition json_dumps (message : payload) : M text :=
  match message with
  | MessageDict _ => raise TypeError
  | Envelope message_data => ret (Json message_data)
  end.

Definition pong : json := JObj [("type", JStr "pong")].

(** ** Collections *)

(** [update_one]: the first document the filter selects is changed. *)
Fixpoint update_first {A} (selects : A -> bool) (f : A -> A) (l : list A) : list A :=
  match l with
  | [] => []
  | x :: rest => if selects x then f x :: rest else x :: update_first selects f rest
  end.

(** The [update_data] dictionary of [join_session]: each key is present or
    not. *)
Record SessionUpdate : Type := {
  set_candidate_id : option string;
  set_hr_id : option string;
  set_status : option string }.

Definition no_update : SessionUpdate :=
  {| set_candidate_id := None; set_hr_id := None; set_status := None |}.

Definition with_candidate_id (v : string) (u : SessionUpdate) : SessionUpdate :=
  {| set_candidate_id := Some v; set_hr_id := set_hr_id u; set_status := set_status u |}.

Definition with_hr_id (v : string) (u : SessionUpdate) : SessionUpdate :=
  {| set_candidate_id := set_candidate_id u; set_hr_id := Some v; set_status := set_status u |}.

Definition with_status (v : string) (u : SessionUpdate) : SessionUpdate :=
  {| set_candidate_id := set_candidate_id u; set_hr_id := set_hr_id u; set_status := Some v |}.

Definition is_empty_update (u : SessionUpdate) : bool :=
  match set_candidate_id u, set_hr_id u, set_status u with
  | None, None, None => true
  | _, _, _ => false
  end.

(** [{"$set": update_data}] applied to a session document. *)
Definition apply_set (u : SessionUpdate) (s : InterviewSession) : InterviewSession :=
  {| session_id := session_id s;
     candidate_id := match set_candidate_id u with Some v => Some v | None => candidate_id s end;
     hr_id := match set_hr_id u with Some v => Some v | None => hr_id s end;
     status := default (status s) (set_status u);
     sign_language := sign_language s;
     created_at := created_at s;
     messages := messages s |}.

(** A [datetime] as the store keeps it: BSON dates count milliseconds, the
    microseconds below are dropped. *)
Definition bson_datetime (t : datetime) : datetime := (1000 * (t / 1000))%Z.

(** A message dictionary as the store keeps it. *)
Definition stored_message (message_dict : Message) : Message :=
  {| msg_session_id := msg_session_id message_dict;
     sender_id := sender_id message_dict;
     sender_role := sender_role message_dict;
     message_type := message_type message_dict;
     content := content message_dict;
     timestamp := bson_datetime (timestamp message_dict) |}.

(** A session document as the store keeps it. *)
Definition stored_session (session_dict : InterviewSession) : InterviewSession :=
  {| session_id := session_id session_dict;
     candidate_id := candidate_id session_dict;
     hr_id := hr_id session_dict;
     status := status session_dict;
     sign_language := sign_language session_dict;
     created_at := bson_datetime (created_at session_dict);
     messages := map stored_message (messages session_dict) |}.

(** A user document as the store keeps it. *)
Definition stored_user (user_dict : User) : User :=
  {| user_id := user_id user_dict; name := name user_dict; role := role user_dict;
     user_session_id := user_session_id user_dict;
     user_created_at := bson_datetime (user_created_at user_dict) |}.

(** [{"$push": {"messages": message_dict}}] applied to a session document. *)
Definition apply_push (message_dict : Message) (s : InterviewSession) : InterviewSession :=
  {| session_id := session_id s;
     candidate_id := candidate_id s;
     hr_id := hr_id s;
     status := status s;
     sign_language := sign_language s;
     created_at := created_at s;
     messages := messages s ++ [stored_message message_dict] |}.

(** [{"$set": {"session_id": session_id}}] applied to a user document. *)
Definition apply_user_session (sid : string) (u : User) : User :=
  {| user_id := user_id u; name := name u; role := role u;
     user_session_id := Some sid; user_created_at := user_created_at u |}.

Section Server.
Context {store : Store}.

Definition find_session (query : json) (w : World) : option InterviewSession :=
  find (fun s => bson_match query (session_id s)) (interview_sessions w).

(** [db.interview_sessions.find_one({"session_id": query})]: raises if the
    store refuses the query value. *)
Definition find_one_session (query : json) : M (option InterviewSession) :=
  match query_error query with
  | Some e => raise e
  | None => read (find_session query)
  end.

(** [db.interview_sessions.update_one({"session_id": query}, {"$set": u})] *)
Definition update_one_session_set (query : json) (u : SessionUpdate) : M unit :=
  if is_empty_update u && rejects_empty_set then raise WriteError
  else
    modify (fun w =>
      set_interview_sessions
        (update_first (fun s => bson_match query (session_id s)) (apply_set u)
           (interview_sessions w)) w).

(** [db.interview_sessions.update_one({"session_id": query}, {"$push": ...})] *)
Definition update_one_session_push (query : json) (message_dict : Message) : M unit :=
  modify (fun w =>
    set_interview_sessions
      (update_first (fun s => bson_match query (session_id s)) (apply_push message_dict)
         (interview_sessions w)) w).

(** [db.users.find_one({"user_id": uid})] *)
Definition find_one_user (uid : string) : M (option User) :=
  read (fun w => find (fun u => String.eqb uid (user_id u)) (users w)).

(** [db.users.update_one({"user_id": uid}, {"$set": {"session_id": sid}})] *)
Definition update_one_user_session (uid : string) (sid : string) : M unit :=
  modify (fun w =>
    set_users
      (update_first (fun u => String.eqb uid (user_id u)) (apply_user_session sid)
         (users w)) w).

(** ** class ConnectionManager *)

Definition connect (websocket : nat) (user_id : string) : M unit :=
  accept websocket ;;
  modify (fun w => set_active_connections (<[user_id := websocket]> (active_connections w)) w).

Definition disconnect (user_id : string) : M unit :=
  let* entry := read (fun w => active_connections w !! user_id) in
  match entry with
  | Some _ =>
      modify (fun w => set_active_connections (delete user_id (active_connections w)) w)
  | None => ret tt
  end.

Definition send_personal_message (message : text) (user_id : string) : M unit :=
  let* entry := read (fun w => active_connections w !! user_id) in
  match entry with
  | Some websocket =>
      let* state := read (fun w => client_state (websocket_at w websocket)) in
      if decide (state = CONNECTED) then send_text websocket message else ret tt
  | None => ret tt
  end.

(** The body of the [for] loop of [send_to_session], for one
    [participant_id]. *)
Definition deliver (message : payload) (participant_id : option string) : M unit :=
  match participant_id with
  | Some p =>
      if truthy_str participant_id then
        let* entry := read (fun w => active_connections w !! p) in
        match entry with
        | Some websocket =>
            let* state := read (fun w => client_state (websocket_at w websocket)) in
            if decide (state = CONNECTED) then
              let* data := json_dumps message in
              send_text websocket data
            else ret tt
        | None => ret tt
        end
      else ret tt
  | None => ret tt
  end.

Definition send_to_session (message : payload) (session_id : json) : M unit :=
  let* session := find_one_session session_id in
  match session with
  | Some session =>
      for_each [candidate_id session; hr_id session] (deliver message)
  | None => ret tt
  end.

(** ** User and session endpoints *)

(** POST /users.  [fresh] is the value of [uuid.uuid4()] and [now] that of
    [datetime.utcnow()]. *)
Definition create_user (fresh : N) (now : datetime) (user_data : UserCreate) : M User :=
  let user_obj :=
    {| user_id := str_uuid fresh; name := uc_name user_data; role := uc_role user_data;
       user_session_id := None; user_created_at := now |} in
  modify (fun w => set_users (users w ++ [stored_user user_obj]) w) ;;
  ret user_obj.

(** GET /users/{user_id} *)
Definition get_user (uid : string) : M User :=
  let* user := find_one_user uid in
  match user with
  | None => raise (HTTPException 404 "User not found")
  | Some user => ret user
  end.

(** POST /sessions *)
Definition create_session (fresh : N) (now : datetime) (session_data : SessionCreate)
  : M InterviewSession :=
  let session_obj :=
    {| session_id := str_uuid fresh; candidate_id := None; hr_id := None;
       status := "waiting"; sign_language := sc_sign_language session_data;
       created_at := now; messages := [] |} in
  modify (fun w =>
    set_interview_sessions (interview_sessions w ++ [stored_session session_obj]) w) ;;
  ret session_obj.

(** GET /sessions/{session_id} *)
Definition get_session (sid : string) : M InterviewSession :=
  let* session := find_one_session (JStr sid) in
  match session with
  | None => raise (HTTPException 404 "Session not found")
  | Some session => ret session
  end.

(** The body of the join response: [message] and [status]. *)
Record JoinResponse : Type := {
  jr_message : string;
  jr_status : string }.

(** The [update_data] dictionary that [join_session] fills with its two
    conditionals, for the session document [session] it has just read. *)
Definition join_update_data (session : InterviewSession) (uid : string) (role : string)
  : SessionUpdate :=
  let update_data := no_update in
  let update_data :=
    if String.eqb role "candidate" then with_candidate_id uid update_data
    else if String.eqb role "hr" then with_hr_id uid update_data
    else update_data in
  let update_data :=
    if String.eqb role "candidate" && truthy_str (hr_id session)
    then with_status "active" update_data
    else if String.eqb role "hr" && truthy_str (candidate_id session)
    then with_status "active" update_data
    else update_data in
  update_data.

(** POST /sessions/{session_id}/join?user_id&role *)
Definition join_session (sid : string) (uid : string) (role : string) : M JoinResponse :=
  let* session := find_one_session (JStr sid) in
  match session with
  | None => raise (HTTPException 404 "Session not found")
  | Some session =>
      let update_data := join_update_data session uid role in
      update_one_session_set (JStr sid) update_data ;;
      update_one_user_session uid sid ;;
      ret {| jr_message := "Joined session successfully";
             jr_status := default "waiting" (set_status update_data) |}
  end.

(** POST /sessions/{session_id}/messages; the answer is the acknowledgment
    text. *)
Definition send_message (sid : string) (message : Message) : M string :=
  let message_dict := message in
  update_one_session_push (JStr sid) message_dict ;;
  send_to_session (MessageDict message_dict) (JStr sid) ;;
  ret "Message sent successfully".

(** ** The live-channel endpoint *)

(** One turn of the [while True] loop on the frame [f]. *)
Definition loop_body (websocket : nat) (f : frame) : M unit :=
  let* data := receive_text websocket f in
  let* message_data := json_loads data in
  let* type := py_get message_data "type" in
  if py_eq_str type "ping" then
    send_text websocket (Json pong)
  else
    let* type := py_get message_data "type" in
    if py_eq_str type "message" then
      let* sid := py_get message_data "session_id" in
      if truthy sid then send_to_session (Envelope message_data) sid
      else ret tt
    else ret tt.

(** Where an endpoint coroutine stands when it has not raised: suspended in
    [receive_text] for the next frame, or returned. *)
Inductive progress : Type := Awaiting | Finished.

(** The loop over the frames that arrive; it only ends by an exception. *)
Fixpoint receive_loop (websocket : nat) (frames : list frame) : M progress :=
  match frames with
  | [] => ret Awaiting
  | f :: rest => loop_body websocket f ;; receive_loop websocket rest
  end.

(** The [try] statement of the endpoint, entered with [frames] to come. *)
Definition guarded_loop (websocket : nat) (uid : string) (frames : list frame) : M progress :=
  try_except (receive_loop websocket frames)
    (fun e =>
       match e with
       | WebSocketDisconnect => Some (disconnect uid ;; ret Finished)
       | _ => None
       end).

(** /ws/{user_id} *)
Definition websocket_endpoint (websocket : nat) (uid : string) (frames : list frame)
  : M progress :=
  connect websocket uid ;;
  guarded_loop websocket uid frames.

(** ** Routing and histories *)

Fixpoint has_slash (s : string) : bool :=
  match s with
  | EmptyString => false
  | String c rest => Ascii.eqb c "/" || has_slash rest
  end.

(** A path parameter such as [{user_id}] captures one non-empty segment. *)
Definition is_segment (s : string) : bool :=
  negb (String.eqb s "") && negb (has_slash s).

(** What reaches the application: requests, the opening of a live channel
    with a new [WebSocket] object, and a frame arriving for the endpoint
    that runs on a channel. *)
Inductive event : Type :=
| PostUsers (fresh : N) (now : datetime) (user_data : UserCreate)
| GetUser (uid : string)
| PostSessions (fresh : N) (now : datetime) (session_data : SessionCreate)
| GetSession (sid : string)
| PostJoin (sid : string) (uid : string) (role : string)
| PostMessages (sid : string) (message : Message)
| WsOpen (websocket : nat) (uid : string)
| WsFrame (websocket : nat) (uid : string) (f : frame).

(** A request whose path parameter is no segment never reaches the
    handler: the router answers it itself (not found, a redirect, or a
    refused handshake), here [NotRouted]. *)
Definition routed {A} (param : string) (handler : M A) : M unit :=
  if is_segment param then handler ;; ret tt
  else raise NotRouted.

Definition dispatch (e : event) : M unit :=
  match e with
  | PostUsers fresh now user_data => create_user fresh now user_data ;; ret tt
  | GetUser uid => routed uid (get_user uid)
  | PostSessions fresh now session_data => create_session fresh now session_data ;; ret tt
  | GetSession sid => routed sid (get_session sid)
  | PostJoin sid uid role => routed sid (join_session sid uid role)
  | PostMessages sid message => routed sid (send_message sid message)
  | WsOpen websocket uid => routed uid (websocket_endpoint websocket uid [])
  | WsFrame websocket uid f => routed uid (guarded_loop websocket uid [f])
  end.

Definition step (w : World) (e : event) : World := snd (dispatch e w).

Definition run (events : list event) (w : World) : World := fold_left step events w.

(** The messages that reach the persisted-message endpoint for the session
    [sid] in a history, in order of arrival. *)
Definition posted (sid : string) (events : list event) : list Message :=
  flat_map
    (fun e =>
       match e with
       | PostMessages sid' message =>
           if is_segment sid' && String.eqb sid' sid then [message] else []
       | _ => []
       end) events.

(** The joining identity of a join request is not the empty string. *)
Definition joins_with_identity (e : event) : Prop :=
  match e with
  | PostJoin _ uid _ => uid <> ""
  | _ => True
  end.

(** No live channel can be reached under the identity [uid]: it has no
    registry entry, or the channel registered for it is not connected. *)
Definition unavailable (w : World) (uid : string) : Prop :=
  forall websocket,
    active_connections w !! uid = Some websocket ->
    client_state (websocket_at w websocket) <> CONNECTED.

(** ** The session router as the specification words it *)

(** Specification (4.2): look up the session record of the identity [sid]
    and return the set of its non-null participant identities among
    candidate and interviewer; the empty set if no session has that
    identity. *)
Definition participants_of (sid : string) (w : World) : gset string :=
  match find (fun s => String.eqb (session_id s) sid) (interview_sessions w) with
  | Some session => list_to_set (omap id [candidate_id session; hr_id session])
  | None => ∅
  end.

End Server.

(** A store in which only a string selects anything, a value holding an
    integer outside the eight-byte range is refused with the driver's
    [OverflowError], and an empty [$set] changes nothing. *)
Definition exact_match (q : json) (t : string) : bool :=
  match q with
  | JStr s => String.eqb s t
  | _ => false
  end.

Fixpoint int64_overflow (v : json) : bool :=
  match v with
  | JInt z => (z <? - 2 ^ 63)%Z || (2 ^ 63 <=? z)%Z
  | JArr elements => existsb int64_overflow elements
  | JObj items => existsb (fun item => int64_overflow (snd item)) items
  | _ => false
  end.

Definition overflow_error (q : json) : option exn :=
  if int64_overflow q then Some OverflowError else None.

Definition exact_store : Store :=
  {| bson_match := exact_match;
     bson_match_str := fun s t => eq_refl;
     bson_match_falsy := fun q t _ =>
       match q with
       | JStr s => fun not_str => False_ind _ (not_str s eq_refl)
       | _ => fun _ => eq_refl
       end;
     query_error := overflow_error;
     query_error_str := fun s => eq_refl;
     bson_match_accepted := fun q t =>
       match q with
       | JStr s => fun _ => eq_refl
       | _ => fun selected => False_ind _ (Bool.diff_false_true selected)
       end;
     rejects_empty_set := false |}.

(** ** A sample history

    One session is created and joined by a candidate and an interviewer,
    who both open a live channel. *)

Definition sample_sid : string := str_uuid 1%N.

Definition sample_history : list event :=
  [PostSessions 1%N 0%Z {| sc_sign_language := "ASL" |};
   PostJoin sample_sid "u1" "candidate";
   PostJoin sample_sid "u2" "hr";
   WsOpen 0 "u1";
   WsOpen 1 "u2"].

Definition sample_world : World := run (store := exact_store) sample_history initial_world.

Definition sample_session : InterviewSession :=
  {| session_id := sample_sid; candidate_id := Some "u1"; hr_id := Some "u2";
     status := "active"; sign_language := "ASL"; created_at := 0%Z; messages := [] |}.

Definition sample_message (text : string) : Message :=
  {| msg_session_id := sample_sid; sender_id := "u1"; sender_role := "candidate";
     message_type := "sign_to_text"; content := text; timestamp := 1700000000123456%Z |}.

Definition sample_envelope : list (string * json) :=
  [("type", JStr "message"); ("session_id", JStr sample_sid); ("content", JStr "hi")].

(** A live envelope whose session id is an integer beyond eight bytes. *)
Definition oversized_envelope : list (string * json) :=
  [("type", JStr "message"); ("session_id", JInt (2 ^ 64))].

(** A history in which the interviewer joins under the empty identity. *)
Definition anonymous_history : list event :=
  [PostSessions 1%N 0%Z {| sc_sign_language := "ASL" |};
   PostJoin sample_sid "" "hr";
   PostJoin sample_sid "u1" "candidate"].

(** ** Invariants *)

(** [keeps proj c]: running [c] never changes the component [proj] of the
    process state, whether it returns or raises. *)
Definition keeps {A B} (proj : World -> B) (c : M A) : Prop :=
  forall w, proj (snd (c w)) = proj w.

(** What holds of every stored session while every join names a non-empty
    identity: the status rule, and no participant slot holds the empty
    string. *)
Definition well_joined (s : InterviewSession) : Prop :=
  (status s = "active" <-> candidate_id s <> None /\ hr_id s <> None)
  /\ (status s = "active" \/ status s = "waiting")
  /\ candidate_id s <> Some ""
  /\ hr_id s <> Some "".

(** No history registers the empty identity, and no stored session has the
    empty identity. *)
Definition well_formed (w : World) : Prop :=
  active_connections w !! "" = None
  /\ Forall (fun s => session_id s <> "") (interview_sessions w).

(** [evolves s s']: what every operation keeps of a stored session [s]
    when it turns it into [s']. *)
Definition evolves (s s' : InterviewSession) : Prop :=
  session_id s' = session_id s
  /\ sign_language s' = sign_language s
  /\ created_at s' = created_at s
  /\ (status s = "active" -> status s' = "active")
  /\ (candidate_id s <> None -> candidate_id s' <> None)
  /\ (hr_id s <> None -> hr_id s' <> None)
  /\ exists more, messages s' = messages s ++ more.

(** ** Status checks

    The two status endpoints only touch [db.status_checks]; they are
    embedded over that collection alone. *)

Record StatusCheck : Type := {
  status_id : string;
  client_name : string;
  status_timestamp : datetime }.

Record StatusCheckCreate : Type := {
  scc_client_name : string }.

(** A status document as the store keeps it. *)
Definition stored_status (status_dict : StatusCheck) : StatusCheck :=
  {| status_id := status_id status_dict; client_name := client_name status_dict;
     status_timestamp := bson_datetime (status_timestamp status_dict) |}.

(** POST /status: the answer and the collection after the insert. *)
Definition create_status_check
  (fresh : N) (now : datetime) (input : StatusCheckCreate) (status_checks : list StatusCheck)
  : StatusCheck * list StatusCheck :=
  let status_obj :=
    {| status_id := str_uuid fresh; client_name := scc_client_name input;
       status_timestamp := now |} in
  (status_obj, status_checks ++ [stored_status status_obj]).

(** GET /status: [find().to_list(1000)], each document rebuilt as a
    [StatusCheck]. *)
Definition get_status_checks (status_checks : list StatusCheck) : list StatusCheck :=
  map (fun status_check => status_check) (firstn 1000 status_checks).

(** ** Further sample states *)

(** The sample session before anyone opens a channel. *)
Definition joined_world : World :=
  run (store := exact_store)
    [PostSessions 1%N 0%Z {| sc_sign_language := "ASL" |};
     PostJoin sample_sid "u1" "candidate";
     PostJoin sample_sid "u2" "hr"] initial_world.

(** A created user and the sample session, not yet joined. *)
Definition sample_uid : string := str_uuid 2%N.

Definition sample_user : User :=
  {| user_id := sample_uid; name := "Ada"; role := "candidate";
     user_session_id := None; user_created_at := 0%Z |}.

Definition fresh_world : World :=
  run (store := exact_store)
    [PostUsers 2%N 0%Z {| uc_name := "Ada"; uc_role := "candidate" |};
     PostSessions 1%N 0%Z {| sc_sign_language := "ASL" |}] initial_world.

(** The sample session with one identity in both roles, connected. *)
Definition solo_world : World :=
  run (store := exact_store)
    [PostSessions 1%N 0%Z {| sc_sign_language := "ASL" |};
     PostJoin sample_sid "u1" "candidate";
     PostJoin sample_sid "u1" "hr";
     WsOpen 0 "u1"] initial_world.

Definition solo_session : InterviewSession :=
  {| session_id := sample_sid; candidate_id := Some "u1"; hr_id := Some "u1";
     status := "active"; sign_language := "ASL"; created_at := 0%Z; messages := [] |}.

Create HintDb keeps.

Section Properties.
Context {store : Store}.

(** ** Collections *)

Lemma find_all_false {A} (p : A -> bool) (l : list A) :
  (forall x, In x l -> p x = false) -> find p l = None.
Proof.
  induction l as [|x l IH]; intros Hall; simpl; [reflexivity|].
  rewrite (Hall x (or_introl eq_refl)). apply IH.
  intros y Hy. apply Hall. now right.
Qed.

Lemma update_first_none {A} (p : A -> bool) (f : A -> A) (l : list A) :
  find p l = None -> update_first p f l = l.
Proof.
  induction l as [|x l IH]; simpl; [reflexivity|].
  destruct (p x); [discriminate|]. intros H. now rewrite IH.
Qed.

Lemma absent_session (sid : string) (w : World) :
  (forall s, In s (interview_sessions w) -> session_id s <> sid) ->
  find_session (JStr sid) w = None.
Proof.
  intros Habsent. apply find_all_false. intros s Hs.
  rewrite bson_match_str. apply String.eqb_neq.
  intros ->. now apply (Habsent s).
Qed.

Lemma set_interview_sessions_same (w : World) :
  set_interview_sessions (interview_sessions w) w = w.
Proof. now destruct w. Qed.

(** ** The fan-out finds no session *)

Lemma find_one_session_accepted (q : json) :
  query_error q = None -> find_one_session q = read (find_session q).
Proof. intros Hq. unfold find_one_session. now rewrite Hq. Qed.

Lemma find_one_session_str (sid : string) :
  find_one_session (JStr sid) = read (find_session (JStr sid)).
Proof. apply find_one_session_accepted, query_error_str. Qed.

Lemma find_one_session_refused (q : json) (e : exn) (w : World) :
  query_error q = Some e -> find_one_session q w = (Raise e, w).
Proof. intros Hq. unfold find_one_session. now rewrite Hq. Qed.

Lemma find_session_selects (q : json) (w : World) (session : InterviewSession) :
  find_session q w = Some session -> query_error q = None.
Proof.
  intros Hfound. unfold find_session in Hfound.
  apply find_some in Hfound as [_ Hmatch]. exact (bson_match_accepted _ _ Hmatch).
Qed.

Lemma send_to_session_no_session (message : payload) (sid : string) (w : World) :
  find_session (JStr sid) w = None ->
  send_to_session message (JStr sid) w = (Return tt, w).
Proof.
  intros Hnone. unfold send_to_session. rewrite find_one_session_str.
  unfold bind, read. now rewrite Hnone.
Qed.


(** C10: posting a message under a session identity that no stored session
    carries answers with the acknowledgment and leaves the whole process
    state unchanged (no message sequence grows, nothing is sent), and that
    acknowledgment is the one every successful call returns. *)
Theorem message_to_missing_session_is_acknowledged
  (sid : string) (message : Message) (w : World) :
  (forall s, In s (interview_sessions w) -> session_id s <> sid) ->
  send_message sid message w = (Return "Message sent successfully", w)
  /\ (forall sid' message' w' answer w'',
        send_message sid' message' w' = (Return answer, w'') ->
        answer = "Message sent successfully").
Proof.
  intros Habsent. pose proof (absent_session sid w Habsent) as Hnone.
  pose proof Hnone as Hnone'. split.
  - unfold send_message, update_one_session_push, bind, modify.
    unfold find_session in Hnone. rewrite (update_first_none _ _ _ Hnone).
    rewrite set_interview_sessions_same.
    now rewrite (send_to_session_no_session _ _ _ Hnone').
  - intros sid' message' w' answer w''. unfold send_message, bind, ret.
    destruct (update_one_session_push _ _ w') as [[[]|e] w1]; [|discriminate].
    destruct (send_to_session _ _ w1) as [[[]|e] w2]; [|discriminate].
    now intros [= <- _].
Qed.

(** ** The connection manager *)

(** C7: a registry send to an identity that has no entry, or whose channel
    is not in the connected state, returns normally and leaves the whole
    process state unchanged: nothing is handed to any channel. *)
Theorem send_to_unavailable_identity_is_dropped
  (message : text) (uid : string) (w : World) :
  active_connections w !! uid = None
  \/ (exists websocket, active_connections w !! uid = Some websocket
        /\ client_state (websocket_at w websocket) <> CONNECTED) ->
  send_personal_message message uid w = (Return tt, w).
Proof.
  intros [Hnone | (websocket & Hsome & Hstate)];
    unfold send_personal_message, bind, read.
  - now rewrite Hnone.
  - rewrite Hsome. now destruct (decide _).
Qed.

(** C9: disconnecting an identity never raises; disconnecting it a second
    time leaves the state the first disconnect produced; and for an
    identity without an entry the state does not change at all. *)
Theorem disconnect_twice_is_disconnect_once (uid : string) (w : World) :
  fst (disconnect uid w) = Return tt
  /\ disconnect uid (snd (disconnect uid w)) = (Return tt, snd (disconnect uid w))
  /\ (active_connections w !! uid = None -> disconnect uid w = (Return tt, w)).
Proof.
  unfold disconnect, bind, read, modify, ret.
  destruct (active_connections w !! uid) as [websocket|] eqn:Hentry; simpl.
  - rewrite lookup_delete_eq. repeat split; try reflexivity. discriminate.
  - rewrite Hentry. repeat split; reflexivity.
Qed.

(** ** Ping *)


(** ** What a computation leaves alone *)

Lemma keeps_ret {A B} (proj : World -> B) (a : A) : keeps proj (ret a).
Proof. now intros w. Qed.

Lemma keeps_raise {A B} (proj : World -> B) (e : exn) : keeps proj (@raise A e).
Proof. now intros w. Qed.

Lemma keeps_read {A B} (proj : World -> B) (f : World -> A) : keeps proj (read f).
Proof. now intros w. Qed.

Lemma keeps_modify {B} (proj : World -> B) (f : World -> World) :
  (forall w, proj (f w) = proj w) -> keeps proj (modify f).
Proof. intros Hf w. apply Hf. Qed.

Lemma keeps_bind {A A' B} (proj : World -> B) (c : M A) (k : A -> M A') :
  keeps proj c -> (forall a, keeps proj (k a)) -> keeps proj (bind c k).
Proof.
  intros Hc Hk w. unfold bind. specialize (Hc w).
  destruct (c w) as [[a|e] w1]; simpl in *; [|exact Hc].
  now rewrite Hk.
Qed.

Lemma keeps_try_except {A B} (proj : World -> B) (body : M A) handler :
  keeps proj body ->
  (forall e h, handler e = Some h -> keeps proj h) ->
  keeps proj (try_except body handler).
Proof.
  intros Hbody Hhandler w. unfold try_except. specialize (Hbody w).
  destruct (body w) as [[a|e] w1]; simpl in *; [exact Hbody|].
  destruct (handler e) as [h|] eqn:He; simpl; [|exact Hbody].
  now rewrite (Hhandler e h He).
Qed.

Lemma keeps_for_each {A B} (proj : World -> B) (l : list A) (body : A -> M unit) :
  (forall x, keeps proj (body x)) -> keeps proj (for_each l body).
Proof.
  intros Hbody. induction l as [|x l IH]; simpl.
  - apply keeps_ret.
  - apply keeps_bind; [apply Hbody | intros _; exact IH].
Qed.

(** What follows a computation and keeps [proj] does not show in [proj]. *)
Lemma bind_keeps_after {A A' B} (proj : World -> B) (c : M A) (k : A -> M A') :
  (forall a, keeps proj (k a)) ->
  forall w, proj (snd (bind c k w)) = proj (snd (c w)).
Proof.
  intros Hk w. unfold bind. destruct (c w) as [[a|e] w1]; simpl; [apply Hk | reflexivity].
Qed.

#[local] Hint Resolve keeps_ret keeps_raise keeps_read : keeps.

(** Breaks a [keeps] goal down along the structure of the computation. *)
Ltac keeps_step :=
  match goal with
  | |- keeps _ (bind _ _) => apply keeps_bind; [|intros ?]
  | |- keeps _ (ret _) => apply keeps_ret
  | |- keeps _ (raise _) => apply keeps_raise
  | |- keeps _ (read _) => apply keeps_read
  | |- keeps _ (for_each _ _) => apply keeps_for_each; intros ?
  | |- keeps _ (modify _) => apply keeps_modify; intros ?; reflexivity
  | |- keeps _ (match ?x with _ => _ end) => destruct x
  | |- keeps _ (if ?b then _ else _) => destruct b
  end.

Ltac keeps_auto := repeat keeps_step; eauto with keeps.

Lemma update_websocket_keeps_sessions handle f :
  keeps interview_sessions (update_websocket handle f).
Proof. unfold update_websocket. keeps_auto. Qed.

Lemma update_websocket_keeps_registry handle f :
  keeps active_connections (update_websocket handle f).
Proof. unfold update_websocket. keeps_auto. Qed.

#[local] Hint Resolve update_websocket_keeps_sessions update_websocket_keeps_registry : keeps.

Lemma send_to_session_keeps_sessions message q :
  keeps interview_sessions (send_to_session message q).
Proof.
  unfold send_to_session, find_one_session, deliver, json_dumps, send_text. keeps_auto.
Qed.

Lemma send_to_session_keeps_registry message q :
  keeps active_connections (send_to_session message q).
Proof.
  unfold send_to_session, find_one_session, deliver, json_dumps, send_text. keeps_auto.
Qed.

#[local] Hint Resolve send_to_session_keeps_sessions send_to_session_keeps_registry : keeps.

Lemma loop_body_keeps_sessions websocket f :
  keeps interview_sessions (loop_body websocket f).
Proof.
  unfold loop_body, receive_text, json_loads, py_get, send_text. keeps_auto.
Qed.

Lemma loop_body_keeps_registry websocket f :
  keeps active_connections (loop_body websocket f).
Proof.
  unfold loop_body, receive_text, json_loads, py_get, send_text. keeps_auto.
Qed.

#[local] Hint Resolve loop_body_keeps_sessions loop_body_keeps_registry : keeps.

Lemma receive_loop_keeps_sessions websocket frames :
  keeps interview_sessions (receive_loop websocket frames).
Proof. induction frames; simpl; keeps_auto. Qed.

Lemma guarded_loop_keeps_sessions websocket uid frames :
  keeps interview_sessions (guarded_loop websocket uid frames).
Proof.
  unfold guarded_loop. apply keeps_try_except.
  - apply receive_loop_keeps_sessions.
  - intros e h. destruct e; try discriminate. intros [= <-].
    unfold disconnect. keeps_auto.
Qed.

Lemma websocket_endpoint_keeps_sessions websocket uid frames :
  keeps interview_sessions (websocket_endpoint websocket uid frames).
Proof.
  unfold websocket_endpoint, connect, accept. keeps_auto.
  apply guarded_loop_keeps_sessions.
Qed.

(** ** How a history changes the session collection *)

Lemma find_app_some {A} (p : A -> bool) (l : list A) (x y : A) :
  find p l = Some y -> find p (l ++ [x]) = Some y.
Proof.
  induction l as [|z l IH]; simpl; [discriminate|].
  destruct (p z); [trivial | exact IH].
Qed.

Lemma find_update_first_same {A} (p : A -> bool) (f : A -> A) (l : list A) :
  (forall x, p (f x) = p x) ->
  find p (update_first p f l) = option_map f (find p l).
Proof.
  intros Hf. induction l as [|x l IH]; simpl; [reflexivity|].
  destruct (p x) eqn:Hx; simpl.
  - now rewrite Hf, Hx.
  - now rewrite Hx.
Qed.

Lemma find_update_first_other {A} (p q : A -> bool) (f : A -> A) (l : list A) :
  (forall x, p (f x) = p x) ->
  (forall x, p x = true -> q x = false) ->
  find p (update_first q f l) = find p l.
Proof.
  intros Hf Hpq. induction l as [|x l IH]; simpl; [reflexivity|].
  destruct (q x) eqn:Hq; simpl.
  - rewrite Hf. destruct (p x) eqn:Hp; [|reflexivity].
    rewrite (Hpq x Hp) in Hq. discriminate.
  - destruct (p x); [reflexivity | exact IH].
Qed.

Lemma Forall_update_first {A} (P : A -> Prop) (q : A -> bool) (f : A -> A) (l : list A) :
  Forall P l ->
  (forall x, find q l = Some x -> P x -> P (f x)) ->
  Forall P (update_first q f l).
Proof.
  induction l as [|x l IH]; simpl; intros Hall Hf; [constructor|].
  apply Forall_cons_iff in Hall as [Hx Hl].
  destruct (q x) eqn:Hq.
  - constructor; [now apply Hf | exact Hl].
  - constructor; [exact Hx | now apply IH].
Qed.

(** The session collection after one event. *)
Lemma sessions_after_step (e : event) (w : World) :
  interview_sessions (step w e) =
  match e with
  | PostSessions fresh now session_data =>
      interview_sessions w ++
      [{| session_id := str_uuid fresh; candidate_id := None; hr_id := None;
          status := "waiting"; sign_language := sc_sign_language session_data;
          created_at := bson_datetime now; messages := [] |}]
  | PostJoin sid uid role =>
      match find_session (JStr sid) w with
      | Some session =>
          if negb (is_segment sid)
             || is_empty_update (join_update_data session uid role) && rejects_empty_set
          then interview_sessions w
          else update_first (fun s => bson_match (JStr sid) (session_id s))
                 (apply_set (join_update_data session uid role)) (interview_sessions w)
      | None => interview_sessions w
      end
  | PostMessages sid message =>
      if is_segment sid
      then update_first (fun s => bson_match (JStr sid) (session_id s))
             (apply_push message) (interview_sessions w)
      else interview_sessions w
  | _ => interview_sessions w
  end.
Proof.
  unfold step. destruct e as [fresh now d|uid|fresh now d|sid|sid uid role|sid m|h uid|h uid f];
    simpl; unfold routed.
  - reflexivity.
  - destruct (is_segment uid); [|reflexivity].
    enough (keeps interview_sessions (get_user uid ;; ret tt)) as H by apply H.
    unfold get_user, find_one_user. keeps_auto.
  - reflexivity.
  - destruct (is_segment sid); [|reflexivity].
    enough (keeps interview_sessions (get_session sid ;; ret tt)) as H by apply H.
    unfold get_session, find_one_session. keeps_auto.
  - destruct (is_segment sid); simpl.
    + unfold join_session. rewrite find_one_session_str. unfold bind, read.
      destruct (find_session (JStr sid) w) as [session|]; [|reflexivity].
      unfold update_one_session_set.
      destruct (is_empty_update _ && rejects_empty_set); reflexivity.
    + now destruct (find_session (JStr sid) w).
  - destruct (is_segment sid); [|reflexivity].
    rewrite bind_keeps_after by (intros ?; keeps_auto).
    unfold send_message. rewrite bind_keeps_after by (intros ?; keeps_auto).
    reflexivity.
  - destruct (is_segment uid); [|reflexivity].
    enough (keeps interview_sessions (websocket_endpoint h uid [] ;; ret tt)) as H by apply H.
    keeps_auto. apply websocket_endpoint_keeps_sessions.
  - destruct (is_segment uid); [|reflexivity].
    enough (keeps interview_sessions (guarded_loop h uid [f] ;; ret tt)) as H by apply H.
    keeps_auto. apply guarded_loop_keeps_sessions.
Qed.

Lemma get_session_found (sid : string) (w : World) (session : InterviewSession) :
  fst (get_session sid w) = Return session <-> find_session (JStr sid) w = Some session.
Proof.
  unfold get_session. rewrite find_one_session_str. unfold bind, read, ret, raise.
  destruct (find_session (JStr sid) w); simpl; split; congruence.
Qed.

Lemma get_session_reads (sid : string) (w : World) : snd (get_session sid w) = w.
Proof.
  unfold get_session. rewrite find_one_session_str. unfold bind, read, ret, raise.
  now destruct (find_session (JStr sid) w).
Qed.

Lemma run_cons (e : event) (events : list event) (w : World) :
  run (e :: events) w = run events (step w e).
Proof. reflexivity. Qed.

(** ** Persisted messages *)

Lemma step_session_messages (sid : string) (e : event) (w : World) (s : InterviewSession) :
  find_session (JStr sid) w = Some s ->
  exists s', find_session (JStr sid) (step w e) = Some s'
             /\ messages s' = messages s ++ map stored_message (posted sid [e]).
Proof.
  intros Hfound. unfold find_session in *. rewrite sessions_after_step.
  assert (Hsame : exists s', find (fun x => bson_match (JStr sid) (session_id x))
                               (interview_sessions w) = Some s'
                             /\ messages s' = messages s ++ [])
    by (exists s; now rewrite app_nil_r).
  assert (Hupd : forall sid' f,
            (forall x, session_id (f x) = session_id x) ->
            exists s', find (fun x => bson_match (JStr sid) (session_id x))
                         (update_first (fun x => bson_match (JStr sid') (session_id x)) f
                            (interview_sessions w)) = Some s'
                       /\ s' = if String.eqb sid' sid then f s else s).
  { intros sid' f Hf. destruct (String.eqb sid' sid) eqn:Hsid.
    - apply String.eqb_eq in Hsid as ->.
      rewrite find_update_first_same by (intros x; now rewrite Hf).
      rewrite Hfound. exists (f s). now split.
    - rewrite find_update_first_other.
      + exists s. now split.
      + intros x. now rewrite Hf.
      + intros x. rewrite !bson_match_str. intros ->%String.eqb_eq. exact Hsid. }
  destruct e as [fresh now d|uid|fresh now d|sid'|sid' uid role|sid' m|h uid|h uid f];
    simpl; try exact Hsame.
  - exists s. split; [now apply find_app_some | now rewrite app_nil_r].
  - destruct (find_session (JStr sid') w) as [session|]; [|exact Hsame].
    destruct (_ || _); [exact Hsame|].
    destruct (Hupd sid' (apply_set (join_update_data session uid role)))
      as (s' & Hs' & ->); [reflexivity|].
    exists (if String.eqb sid' sid
            then apply_set (join_update_data session uid role) s else s).
    split; [exact Hs'|]. rewrite app_nil_r. now destruct (String.eqb sid' sid).
  - destruct (is_segment sid'); simpl.
    + destruct (Hupd sid' (apply_push m)) as (s' & Hs' & ->); [reflexivity|].
      eexists. split; [exact Hs'|].
      destruct (String.eqb sid' sid); simpl; now rewrite ?app_nil_r.
    + exact Hsame.
Qed.

(** C2: if reading the session [sid] succeeds, then after any history of
    events it still succeeds, and the message sequence it returns is the
    one read before followed by the messages posted for [sid] to the
    persisted-message endpoint during that history, in order of arrival and
    each as the store keeps it, that is with the content, sender and type
    it was posted with: nothing is dropped, altered or reordered. *)
Theorem persisted_messages_round_trip
  (sid : string) (events : list event) (w : World) (session : InterviewSession) :
  get_session sid w = (Return session, w) ->
  exists session',
    get_session sid (run events w) = (Return session', run events w)
    /\ messages session' = messages session ++ map stored_message (posted sid events)
    /\ (forall m, content (stored_message m) = content m
                  /\ sender_id (stored_message m) = sender_id m
                  /\ message_type (stored_message m) = message_type m).
Proof.
  intros Hread. cut (exists session',
    get_session sid (run events w) = (Return session', run events w)
    /\ messages session' = messages session ++ map stored_message (posted sid events)).
  { intros (session' & H1 & H2). exists session'. repeat split; assumption. }
  assert (Hfound : find_session (JStr sid) w = Some session)
    by (apply get_session_found; now rewrite Hread).
  clear Hread. revert w session Hfound.
  induction events as [|e events IH]; intros w session Hfound.
  - exists session. split; [|now rewrite app_nil_r].
    apply get_session_found in Hfound.
    pose proof (get_session_reads sid w) as Hw.
    simpl. destruct (get_session sid w); simpl in *; congruence.
  - destruct (step_session_messages sid e w session Hfound) as (s1 & Hs1 & Hm1).
    destruct (IH (step w e) s1 Hs1) as (s2 & Hs2 & Hm2).
    exists s2. split; [exact Hs2|].
    rewrite Hm2, Hm1. unfold posted. simpl. rewrite app_nil_r, map_app.
    now rewrite app_assoc.
Qed.

(** ** The status of a session *)

Lemma truthy_str_none (o : option string) :
  o <> Some "" -> truthy_str o = false -> o = None.
Proof.
  destruct o as [x|]; simpl; [|reflexivity].
  intros Hx. destruct (String.eqb_spec x ""); simpl; [subst; congruence | discriminate].
Qed.

Lemma truthy_str_present (o : option string) : truthy_str o = true -> o <> None.
Proof. destruct o; [congruence | discriminate]. Qed.

Lemma join_keeps_well_joined (s : InterviewSession) (uid role : string) :
  uid <> "" -> well_joined s -> well_joined (apply_set (join_update_data s uid role) s).
Proof.
  intros Huid (Hiff & Hstatus & Hc & Hh).
  assert (Hnew : Some uid <> Some "") by congruence.
  pose proof (truthy_str_none _ Hc) as Tc. pose proof (truthy_str_none _ Hh) as Th.
  unfold well_joined, apply_set, join_update_data.
  destruct (String.eqb role "candidate") eqn:Ecand; simpl.
  - apply String.eqb_eq in Ecand as ->.
    destruct (truthy_str (hr_id s)) eqn:Ehr; simpl.
    + apply truthy_str_present in Ehr. intuition congruence.
    + specialize (Th eq_refl). rewrite Th in *. intuition congruence.
  - destruct (String.eqb role "hr") eqn:Ehrrole; simpl.
    + destruct (truthy_str (candidate_id s)) eqn:Ec; simpl.
      * apply truthy_str_present in Ec. intuition congruence.
      * specialize (Tc eq_refl). rewrite Tc in *. intuition congruence.
    + intuition congruence.
Qed.

Lemma step_keeps_well_joined (e : event) (w : World) :
  joins_with_identity e ->
  Forall well_joined (interview_sessions w) ->
  Forall well_joined (interview_sessions (step w e)).
Proof.
  intros He Hall. rewrite sessions_after_step.
  destruct e as [fresh now d|uid|fresh now d|sid|sid uid role|sid m|h uid|h uid f];
    simpl in *; try exact Hall.
  - apply Forall_app. split; [exact Hall|]. constructor; [|constructor].
    unfold well_joined; simpl. intuition congruence.
  - destruct (find_session (JStr sid) w) as [session|] eqn:Hfound; [|exact Hall].
    destruct (_ || _); [exact Hall|].
    apply Forall_update_first; [exact Hall|].
    intros x Hx. unfold find_session in Hfound. rewrite Hfound in Hx.
    injection Hx as <-. now apply join_keeps_well_joined.
  - destruct (is_segment sid); [|exact Hall].
    apply Forall_update_first; [exact Hall|]. intros x _ Hx. exact Hx.
Qed.

Lemma run_keeps_well_joined (events : list event) (w : World) :
  Forall joins_with_identity events ->
  Forall well_joined (interview_sessions w) ->
  Forall well_joined (interview_sessions (run events w)).
Proof.
  revert w. induction events as [|e events IH]; intros w Hevents Hall; [exact Hall|].
  apply Forall_cons_iff in Hevents as [He Hevents].
  rewrite run_cons. apply IH; [exact Hevents|]. now apply step_keeps_well_joined.
Qed.

(** C1 (amended): in every history from the empty store in which each join
    names a non-empty identity, whatever session a read returns has
    status "active" exactly when both its candidate and its interviewer
    identity are non-null, has status "waiting" otherwise, and never has
    status "completed". *)
Theorem status_is_active_iff_both_joined
  (events : list event) (sid : string) (session : InterviewSession) :
  Forall joins_with_identity events ->
  fst (get_session sid (run events initial_world)) = Return session ->
  (status session = "active" <-> candidate_id session <> None /\ hr_id session <> None)
  /\ (status session <> "active" -> status session = "waiting")
  /\ status session <> "completed".
Proof.
  intros Hevents Hread. apply get_session_found in Hread.
  apply find_some in Hread as [Hin _].
  pose proof (run_keeps_well_joined events initial_world Hevents (List.Forall_nil _)) as Hall.
  rewrite List.Forall_forall in Hall. destruct (Hall session Hin) as (Hiff & Hstatus & _ & _).
  repeat split; try apply Hiff; intuition congruence.
Qed.

(** ** Frames the loop lets pass *)

Lemma py_eq_str_false (o : option json) (literal : string) :
  o <> Some (JStr literal) -> py_eq_str (default JNull o) literal = false.
Proof.
  destruct o as [[]|]; simpl; try reflexivity.
  intros Hne. apply String.eqb_neq. congruence.
Qed.

Lemma py_eq_str_true (o : option json) (literal : string) :
  o = Some (JStr literal) -> py_eq_str (default JNull o) literal = true.
Proof. intros ->. simpl. apply String.eqb_refl. Qed.

Lemma deliver_unavailable (message : payload) (participant_id : option string) (w : World) :
  (forall p, participant_id = Some p -> unavailable w p) ->
  deliver message participant_id w = (Return tt, w).
Proof.
  intros Hun. unfold deliver. destruct participant_id as [p|]; [|reflexivity].
  destruct (truthy_str (Some p)); [|reflexivity].
  unfold bind, read.
  destruct (active_connections w !! p) as [websocket|] eqn:Hentry; [|reflexivity].
  destruct (decide _) as [Hstate|]; [|reflexivity].
  now destruct (Hun p eq_refl websocket Hentry).
Qed.

Lemma receive_loop_passes (websocket : nat) (f : frame) (rest : list frame) (w : World) :
  loop_body websocket f w = (Return tt, w) ->
  receive_loop websocket (f :: rest) w = receive_loop websocket rest w.
Proof. intros Hbody. simpl. unfold bind. now rewrite Hbody. Qed.

Lemma guarded_loop_passes
  (websocket : nat) (uid : string) (f : frame) (rest : list frame) (w : World) :
  loop_body websocket f w = (Return tt, w) ->
  guarded_loop websocket uid (f :: rest) w = guarded_loop websocket uid rest w.
Proof.
  intros Hbody. unfold guarded_loop, try_except.
  now rewrite (receive_loop_passes _ _ _ _ Hbody).
Qed.

(** C5 (amended): a frame that decodes to a JSON object whose type is not
    "ping", and is either not "message", or is "message" with a session id
    that is missing or false in Python, or with a session id that the store
    accepts as a query value and that selects no stored session, or a
    session none of whose participants has a connected channel in the
    registry, raises nothing and leaves the whole process state as it was
    (so nothing is sent on any channel); the endpoint carries on with the
    frames that follow exactly as if the frame had not arrived. *)
Theorem unhandled_object_frames_are_swallowed
  (websocket : nat) (uid : string) (items : list (string * json))
  (rest : list frame) (w : World) :
  dict_get "type" items <> Some (JStr "ping") ->
  dict_get "type" items <> Some (JStr "message")
  \/ truthy (default JNull (dict_get "session_id" items)) = false
  \/ (query_error (default JNull (dict_get "session_id" items)) = None
      /\ forall session p,
           find_session (default JNull (dict_get "session_id" items)) w = Some session ->
           candidate_id session = Some p \/ hr_id session = Some p ->
           unavailable w p) ->
  loop_body websocket (Text (Json (JObj items))) w = (Return tt, w)
  /\ guarded_loop websocket uid (Text (Json (JObj items)) :: rest) w
     = guarded_loop websocket uid rest w.
Proof.
  intros Hping Hcases.
  assert (Hbody : loop_body websocket (Text (Json (JObj items))) w = (Return tt, w)).
  { unfold loop_body, bind, receive_text, json_loads, py_get, ret. simpl.
    rewrite (py_eq_str_false _ _ Hping).
    destruct Hcases as [Hmessage | [Hfalsy | [Haccepted Hquiet]]].
    - now rewrite (py_eq_str_false _ _ Hmessage).
    - rewrite Hfalsy. now destruct (py_eq_str _ "message").
    - destruct (py_eq_str _ "message"); [|reflexivity].
      destruct (truthy _); [|reflexivity].
      unfold send_to_session. rewrite (find_one_session_accepted _ Haccepted).
      unfold bind, read.
      destruct (find_session _ w) as [session|] eqn:Hfound; [|reflexivity].
      simpl. unfold bind.
      rewrite deliver_unavailable by (intros p Hp; apply (Hquiet session p); auto).
      rewrite deliver_unavailable by (intros p Hp; apply (Hquiet session p); auto).
      reflexivity. }
  split; [exact Hbody | now apply guarded_loop_passes].
Qed.

(** ** Frames that end the endpoint *)

Lemma guarded_loop_undecodable
  (websocket : nat) (uid raw : string) (rest : list frame) (w : World) :
  guarded_loop websocket uid (Text (NotJson raw) :: rest) w = (Raise JSONDecodeError, w).
Proof. reflexivity. Qed.

Lemma guarded_loop_not_an_object
  (websocket : nat) (uid : string) (value : json) (rest : list frame) (w : World) :
  (forall items, value <> JObj items) ->
  guarded_loop websocket uid (Text (Json value) :: rest) w = (Raise AttributeError, w).
Proof. intros Hvalue. destruct value; try reflexivity. now destruct (Hvalue items). Qed.

(** When the client goes away the entry of the identity is removed. *)
Lemma guarded_loop_disconnect
  (websocket : nat) (uid : string) (rest : list frame) (w : World) :
  exists w', guarded_loop websocket uid (Disconnect :: rest) w = (Return Finished, w')
             /\ active_connections w' !! uid = None.
Proof.
  unfold guarded_loop, try_except. simpl.
  unfold bind, disconnect, bind, read, update_websocket, modify, raise, ret. simpl.
  destruct (active_connections w !! uid) eqn:Hentry; simpl; eexists; split;
    try reflexivity; simpl; [apply lookup_delete_eq | exact Hentry].
Qed.

(** C4 (evaluation of the defect): an endpoint whose channel delivers a
    text that is not JSON ends with the decoding error, which its [except]
    clause does not name, and the registry still maps the identity to the
    channel of the ended endpoint. *)
Theorem undecodable_frame_leaves_registry_entry
  (websocket : nat) (uid raw : string) (rest : list frame) (w : World) :
  exists w',
    websocket_endpoint websocket uid (Text (NotJson raw) :: rest) w
    = (Raise JSONDecodeError, w')
    /\ active_connections w' !! uid = Some websocket.
Proof.
  eexists. split.
  - unfold websocket_endpoint, bind, connect, bind, accept, update_websocket, modify.
    simpl. reflexivity.
  - simpl. apply lookup_insert_eq.
Qed.

(** ** States a history can reach *)

Lemma str_uuid_not_empty (u : N) : str_uuid u <> "".
Proof. unfold str_uuid. simpl. discriminate. Qed.

Lemma is_segment_not_empty (s : string) : is_segment s = true -> s <> "".
Proof. intros Hseg ->. discriminate. Qed.

Lemma receive_loop_keeps_registry websocket frames :
  keeps active_connections (receive_loop websocket frames).
Proof. induction frames; simpl; keeps_auto. Qed.

Lemma step_keeps_registry_named (e : event) (w : World) :
  active_connections w !! "" = None -> active_connections (step w e) !! "" = None.
Proof.
  intros Hnone. unfold step.
  destruct e as [fresh now d|uid|fresh now d|sid|sid uid role|sid m|h uid|h uid f];
    simpl; unfold routed.
  - exact Hnone.
  - destruct (is_segment uid); [|exact Hnone].
    enough (keeps active_connections (get_user uid ;; ret tt)) as H by now rewrite H.
    unfold get_user, find_one_user. keeps_auto.
  - exact Hnone.
  - destruct (is_segment sid); [|exact Hnone].
    enough (keeps active_connections (get_session sid ;; ret tt)) as H by now rewrite H.
    unfold get_session, find_one_session. keeps_auto.
  - destruct (is_segment sid); [|exact Hnone].
    enough (keeps active_connections (join_session sid uid role ;; ret tt)) as H
      by now rewrite H.
    unfold join_session, find_one_session, update_one_session_set, update_one_user_session.
    keeps_auto.
  - destruct (is_segment sid); [|exact Hnone].
    enough (keeps active_connections (send_message sid m ;; ret tt)) as H by now rewrite H.
    unfold send_message, update_one_session_push. keeps_auto.
  - destruct (is_segment uid) eqn:Hseg; [|exact Hnone]. simpl.
    rewrite lookup_insert_ne; [exact Hnone|]. now apply is_segment_not_empty.
  - destruct (is_segment uid); [|exact Hnone].
    rewrite bind_keeps_after by (intros ?; keeps_auto).
    unfold guarded_loop, try_except.
    pose proof (receive_loop_keeps_registry h [f] w) as Hloop.
    destruct (receive_loop h [f] w) as [[a|ex] w1]; simpl in *; [now rewrite Hloop|].
    destruct ex; simpl; try now rewrite Hloop.
    unfold bind, disconnect, bind, read, modify, ret.
    destruct (active_connections w1 !! uid) eqn:Hentry; simpl.
    + rewrite lookup_delete_None. right. now rewrite Hloop.
    + now rewrite Hloop.
Qed.

Lemma step_keeps_session_ids (e : event) (w : World) :
  Forall (fun s => session_id s <> "") (interview_sessions w) ->
  Forall (fun s => session_id s <> "") (interview_sessions (step w e)).
Proof.
  intros Hall. rewrite sessions_after_step.
  destruct e as [fresh now d|uid|fresh now d|sid|sid uid role|sid m|h uid|h uid f];
    simpl; try exact Hall.
  - apply Forall_app. split; [exact Hall|]. constructor; [|constructor].
    apply str_uuid_not_empty.
  - destruct (find_session (JStr sid) w); [|exact Hall].
    destruct (_ || _); [exact Hall|].
    apply Forall_update_first; [exact Hall|]. intros x _ Hx. exact Hx.
  - destruct (is_segment sid); [|exact Hall].
    apply Forall_update_first; [exact Hall|]. intros x _ Hx. exact Hx.
Qed.

Lemma run_well_formed (events : list event) (w : World) :
  well_formed w -> well_formed (run events w).
Proof.
  revert w. induction events as [|e events IH]; intros w Hw; [exact Hw|].
  rewrite run_cons. apply IH. destruct Hw as [Hreg Hids]. split.
  - now apply step_keeps_registry_named.
  - now apply step_keeps_session_ids.
Qed.

Lemma initial_world_well_formed : well_formed initial_world.
Proof. split; [reflexivity | constructor]. Qed.

(** A session id that is false in Python selects no stored session. *)
Lemma find_session_falsy (q : json) (w : World) :
  well_formed w -> truthy q = false -> find_session q w = None.
Proof.
  intros [_ Hids] Hfalsy. apply find_all_false. intros s Hs.
  rewrite List.Forall_forall in Hids. specialize (Hids s Hs).
  destruct q; try (apply bson_match_falsy; [exact Hfalsy | discriminate]).
  rewrite bson_match_str. simpl in Hfalsy.
  apply negb_false_iff, String.eqb_eq in Hfalsy as ->.
  apply String.eqb_neq. congruence.
Qed.

(** ** The fan-out of a live envelope *)

Lemma deliver_keeps_registry message participant_id :
  keeps active_connections (deliver message participant_id).
Proof. unfold deliver, json_dumps, send_text. keeps_auto. Qed.

(** For an envelope, one turn of the [for] loop is a registry send to the
    participant, if there is one. *)
Lemma deliver_is_send (value : json) (participant_id : option string) (w : World) :
  active_connections w !! "" = None ->
  deliver (Envelope value) participant_id w =
  match participant_id with
  | Some p => send_personal_message (Json value) p w
  | None => (Return tt, w)
  end.
Proof.
  intros Hnone. unfold deliver, send_personal_message.
  destruct participant_id as [p|]; [|reflexivity]. simpl.
  destruct (String.eqb_spec p "") as [->|Hp]; simpl.
  - unfold bind, read. now rewrite Hnone.
  - unfold bind, read. destruct (active_connections w !! p); [|reflexivity].
    now destruct (decide _).
Qed.

Lemma for_each_cons {A} (x : A) (l : list A) (body : A -> M unit) (w : World) :
  for_each (x :: l) body w = bind (body x) (fun _ => for_each l body) w.
Proof. reflexivity. Qed.

Lemma for_each_deliver_is_sends (value : json) (slots : list (option string)) (w : World) :
  active_connections w !! "" = None ->
  for_each slots (deliver (Envelope value)) w =
  for_each (omap id slots) (send_personal_message (Json value)) w.
Proof.
  revert w. induction slots as [|slot slots IH]; intros w Hnone; [reflexivity|].
  pose proof (deliver_keeps_registry (Envelope value) slot w) as Hkeep.
  pose proof (deliver_is_send value slot w Hnone) as Hsend.
  rewrite for_each_cons. unfold bind at 1. destruct slot as [p|].
  - change (omap id (Some p :: slots)) with (p :: omap id slots).
    rewrite for_each_cons. unfold bind at 1. rewrite <- Hsend.
    destruct (deliver (Envelope value) (Some p) w) as [[[]|ex] w1]; [|reflexivity].
    apply IH. simpl in Hkeep. now rewrite Hkeep.
  - rewrite Hsend. now apply IH.
Qed.

Lemma find_same {A} (p q : A -> bool) (l : list A) :
  (forall x, p x = q x) -> find p l = find q l.
Proof.
  intros Hpq. induction l as [|x l IH]; simpl; [reflexivity|].
  rewrite Hpq. now destruct (q x).
Qed.

(** For a string, the session the store selects is the session record of
    that identity. *)
Lemma find_session_by_identity (sid : string) (w : World) :
  find_session (JStr sid) w
  = find (fun s => String.eqb (session_id s) sid) (interview_sessions w).
Proof.
  unfold find_session. apply find_same. intros s.
  rewrite bson_match_str. apply String.eqb_sym.
Qed.

Lemma elem_of_slots (c h : option string) (p : string) :
  p ∈ omap id [c; h] <-> c = Some p \/ h = Some p.
Proof.
  destruct c as [a|], h as [b|]; cbn;
    rewrite ?elem_of_cons, ?elem_of_nil; intuition congruence.
Qed.

Lemma participants_of_session (sid : string) (w : World) (p : string) :
  p ∈ participants_of sid w
  <-> exists session,
        find_session (JStr sid) w = Some session
        /\ (candidate_id session = Some p \/ hr_id session = Some p).
Proof.
  unfold participants_of. rewrite find_session_by_identity.
  destruct (find _ (interview_sessions w)) as [session|].
  - rewrite elem_of_list_to_set, elem_of_slots. split.
    + intros Hp. now exists session.
    + now intros (s & [= <-] & Hp).
  - split; [set_solver | now intros (s & Hs & _)].
Qed.

(** For an envelope and a string identity, the fan-out of the code is a
    sequence of registry sends to the participants the router resolves. *)
Lemma send_to_session_is_sends (value : json) (sid : string) (w : World) :
  active_connections w !! "" = None ->
  exists targets,
    send_to_session (Envelope value) (JStr sid) w
    = for_each targets (send_personal_message (Json value)) w
    /\ (forall p, In p targets <-> p ∈ participants_of sid w).
Proof.
  intros Hnone. unfold send_to_session. rewrite find_one_session_str.
  unfold bind, read.
  destruct (find_session (JStr sid) w) as [session|] eqn:Hfound.
  - exists (omap id [candidate_id session; hr_id session]). split.
    + now apply for_each_deliver_is_sends.
    + intros p. rewrite <- list_elem_of_In, elem_of_slots, participants_of_session.
      split; [intros Hp; now exists session|].
      intros (s & Hs & Hp). rewrite Hfound in Hs. now injection Hs as <-.
  - exists []. split; [reflexivity|]. intros p. rewrite participants_of_session.
    split; [intros []|]. intros (s & Hs & _). rewrite Hfound in Hs. discriminate.
Qed.

Lemma send_personal_message_returns (message : text) (uid : string) (w : World) :
  fst (send_personal_message message uid w) = Return tt.
Proof.
  unfold send_personal_message, bind, read.
  destruct (active_connections w !! uid); [|reflexivity].
  now destruct (decide _).
Qed.

(** A sequence of registry sends never raises. *)
Lemma for_each_send_returns (targets : list string) (message : text) (w : World) :
  fst (for_each targets (send_personal_message message) w) = Return tt.
Proof.
  revert w. induction targets as [|p targets IH]; intros w; [reflexivity|].
  rewrite for_each_cons. unfold bind.
  pose proof (send_personal_message_returns message p w) as Hsend.
  destruct (send_personal_message message p w) as [[[]|e] w1]; [apply IH | discriminate].
Qed.

(** What one turn of the [for] loop adds to the texts of a channel. *)
Lemma deliver_sent (value : json) (participant_id : option string) (w : World) :
  exists w',
    deliver (Envelope value) participant_id w = (Return tt, w')
    /\ active_connections w' = active_connections w
    /\ (forall h, client_state (websocket_at w' h) = client_state (websocket_at w h))
    /\ (forall h, exists more, sent (websocket_at w' h) = sent (websocket_at w h) ++ more)
    /\ (forall p h, participant_id = Some p -> p <> "" ->
          active_connections w !! p = Some h ->
          client_state (websocket_at w h) = CONNECTED ->
          sent (websocket_at w' h) = sent (websocket_at w h) ++ [Json value]).
Proof.
  assert (Hidle : exists w',
    (Return tt, w) = (Return tt, w')
    /\ active_connections w' = active_connections w
    /\ (forall h, client_state (websocket_at w' h) = client_state (websocket_at w h))
    /\ (forall h, exists more, sent (websocket_at w' h) = sent (websocket_at w h) ++ more)).
  { exists w. repeat split; try reflexivity. intros h. exists []. now rewrite app_nil_r. }
  unfold deliver. destruct participant_id as [p|].
  - simpl. destruct (String.eqb_spec p "") as [->|Hp]; simpl.
    + destruct Hidle as (w' & ? & ? & ? & ?). exists w'. repeat split; try assumption.
      intros p h [= <-]. congruence.
    + unfold bind, read.
      destruct (active_connections w !! p) as [h0|] eqn:Hentry.
      * destruct (decide _) as [Hstate|Hstate].
        -- simpl. eexists. split; [reflexivity|]. simpl. repeat split.
           ++ intros h. unfold websocket_at. simpl.
              destruct (decide (h0 = h)) as [->|Hh];
                [now rewrite lookup_insert_eq | now rewrite lookup_insert_ne].
           ++ intros h. unfold websocket_at. simpl.
              destruct (decide (h0 = h)) as [->|Hh].
              ** rewrite lookup_insert_eq. simpl. now eexists.
              ** rewrite lookup_insert_ne by exact Hh. exists []. now rewrite app_nil_r.
           ++ intros p' h [= <-] _ Hh _. rewrite Hentry in Hh. injection Hh as <-.
              unfold websocket_at. simpl. now rewrite lookup_insert_eq.
        -- destruct Hidle as (w' & ? & ? & ? & ?). exists w'. repeat split; try assumption.
           intros p' h [= <-] _ Hh Hc. rewrite Hentry in Hh. injection Hh as <-.
           contradiction.
      * destruct Hidle as (w' & ? & ? & ? & ?). exists w'. repeat split; try assumption.
        intros p' h [= <-] _ Hh. congruence.
  - destruct Hidle as (w' & ? & ? & ? & ?). exists w'. repeat split; try assumption.
    intros p h. discriminate.
Qed.

(** C3 (amended): in every state a history reaches from the empty one, a
    frame whose envelope has type "message" is handled as follows.  If the
    envelope has a [session_id] that is a string the store accepts as a
    query value, the turn of the loop is a sequence of registry sends of
    the envelope, made to exactly the identities the session router of
    the specification resolves for that string: the non-null candidate and
    interviewer of the session with that identity.  If the envelope has no
    [session_id], nothing happens and the loop goes on.  In the first case
    every resolved participant whose registered channel is connected, the
    sender included, finds the envelope among the texts added to that
    channel. *)
Theorem message_envelope_is_fanned_out
  (events : list event) (websocket : nat) (items : list (string * json)) :
  dict_get "type" items = Some (JStr "message") ->
  let w := run events initial_world in
  let envelope := JObj items in
  (forall sid,
     dict_get "session_id" items = Some (JStr sid) ->
     query_error (JStr sid) = None ->
     exists targets,
       loop_body websocket (Text (Json envelope)) w
       = for_each targets (send_personal_message (Json envelope)) w
       /\ (forall p, In p targets <-> p ∈ participants_of sid w))
  /\ (dict_get "session_id" items = None ->
      loop_body websocket (Text (Json envelope)) w = (Return tt, w))
  /\ (forall sid uid channel,
        dict_get "session_id" items = Some (JStr sid) ->
        query_error (JStr sid) = None ->
        uid ∈ participants_of sid w ->
        active_connections w !! uid = Some channel ->
        client_state (websocket_at w channel) = CONNECTED ->
        exists earlier later,
          sent (websocket_at (snd (loop_body websocket (Text (Json envelope)) w)) channel)
          = sent (websocket_at w channel) ++ earlier ++ Json envelope :: later).
Proof.
  intros Htype w envelope.
  assert (Hw : well_formed w) by apply run_well_formed, initial_world_well_formed.
  assert (Hbody : loop_body websocket (Text (Json envelope)) w =
                  let sid := default JNull (dict_get "session_id" items) in
                  if truthy sid then send_to_session (Envelope envelope) sid w
                  else (Return tt, w)).
  { unfold loop_body, bind, receive_text, json_loads, py_get, ret. simpl.
    assert (E : py_eq_str (default JNull (dict_get "type" items)) "ping" = false)
      by now rewrite Htype.
    rewrite E, (py_eq_str_true _ _ Htype). now destruct (truthy _). }
  rewrite Hbody. clear Hbody. cbn zeta. split; [|split].
  - intros sid -> _. cbn [default from_option id]. destruct (truthy (JStr sid)) eqn:Hsid.
    + apply send_to_session_is_sends, Hw.
    + exists []. split; [reflexivity|]. intros p. rewrite participants_of_session.
      rewrite (find_session_falsy _ w Hw Hsid).
      split; [intros [] | now intros (s & Hs & _)].
  - now intros ->.
  - intros sid uid channel -> _ Hpart Hentry Hstate. cbn [default from_option id].
    apply participants_of_session in Hpart as (session & Hfound & Hrole).
    destruct (truthy (JStr sid)) eqn:Hsid;
      [|rewrite (find_session_falsy _ w Hw Hsid) in Hfound; discriminate].
    assert (Huid : uid <> "") by (intros ->; destruct Hw as [Hw _]; congruence).
    unfold send_to_session. rewrite find_one_session_str.
    unfold bind at 1, read. rewrite Hfound.
    cbn [for_each]. unfold bind.
    destruct (deliver_sent envelope (candidate_id session) w)
      as (w1 & -> & Hreg1 & Hstate1 & Hmore1 & Hhit1).
    destruct (deliver_sent envelope (hr_id session) w1)
      as (w2 & -> & Hreg2 & Hstate2 & Hmore2 & Hhit2).
    cbn [snd ret]. destruct Hrole as [Hrole | Hrole].
    + destruct (Hmore2 channel) as [more ->].
      rewrite (Hhit1 uid channel Hrole Huid Hentry Hstate).
      exists [], more. now rewrite <- app_assoc.
    + destruct (Hmore1 channel) as [more Hmore].
      rewrite (Hhit2 uid channel Hrole Huid), Hmore.
      * exists more, []. now rewrite <- app_assoc.
      * now rewrite Hreg1.
      * now rewrite Hstate1.
Qed.

(** * Further properties of the connection manager and the endpoints *)

(** ** Channels and the registry *)

Lemma update_websocket_spec (h : nat) (f : WebSocket -> WebSocket) (w : World) :
  exists w',
    update_websocket h f w = (Return tt, w')
    /\ websocket_at w' h = f (websocket_at w h)
    /\ (forall h', h' <> h -> websocket_at w' h' = websocket_at w h')
    /\ active_connections w' = active_connections w
    /\ interview_sessions w' = interview_sessions w
    /\ users w' = users w.
Proof.
  eexists. split; [reflexivity|]. unfold websocket_at. simpl.
  rewrite lookup_insert_eq. repeat split; try reflexivity.
  intros h' Hh'. now rewrite lookup_insert_ne.
Qed.

Lemma connect_spec (h : nat) (uid : string) (w : World) :
  exists w',
    connect h uid w = (Return tt, w')
    /\ active_connections w' = <[uid := h]> (active_connections w)
    /\ websocket_at w' h = {| client_state := CONNECTED; sent := sent (websocket_at w h) |}
    /\ (forall h', h' <> h -> websocket_at w' h' = websocket_at w h')
    /\ interview_sessions w' = interview_sessions w
    /\ users w' = users w.
Proof.
  eexists. split; [reflexivity|]. unfold websocket_at. simpl.
  rewrite lookup_insert_eq. repeat split; try reflexivity.
  intros h' Hh'. now rewrite lookup_insert_ne.
Qed.

Lemma send_personal_message_connected
  (message : text) (uid : string) (h : nat) (w : World) :
  active_connections w !! uid = Some h ->
  client_state (websocket_at w h) = CONNECTED ->
  send_personal_message message uid w = send_text h message w.
Proof.
  intros Hentry Hstate. unfold send_personal_message, bind, read.
  rewrite Hentry. destruct (decide _); [reflexivity | contradiction].
Qed.

Lemma send_personal_message_unregistered (message : text) (uid : string) (w : World) :
  active_connections w !! uid = None ->
  send_personal_message message uid w = (Return tt, w).
Proof. intros H. unfold send_personal_message, bind, read. now rewrite H. Qed.

Lemma websocket_endpoint_opens (h : nat) (uid : string) (w : World) :
  websocket_endpoint h uid [] w = (Return Awaiting, snd (connect h uid w)).
Proof. reflexivity. Qed.

(** The endpoint on a channel whose client has gone. *)
Lemma guarded_loop_disconnect_spec
  (h : nat) (uid : string) (rest : list frame) (w : World) :
  exists w',
    guarded_loop h uid (Disconnect :: rest) w = (Return Finished, w')
    /\ active_connections w' = delete uid (active_connections w)
    /\ websocket_at w' h = {| client_state := DISCONNECTED; sent := sent (websocket_at w h) |}
    /\ (forall h', h' <> h -> websocket_at w' h' = websocket_at w h')
    /\ interview_sessions w' = interview_sessions w
    /\ users w' = users w.
Proof.
  unfold guarded_loop, try_except. simpl.
  unfold bind, disconnect, bind, read, update_websocket, modify, raise, ret. simpl.
  destruct (active_connections w !! uid) eqn:Hentry; simpl;
    eexists; (split; [reflexivity|]); unfold websocket_at; simpl;
    rewrite lookup_insert_eq; repeat split; try reflexivity;
    try (intros h' Hh'; now rewrite lookup_insert_ne).
  symmetry. now apply delete_id.
Qed.

(** X1: an identity that has just been connected is reachable: a registry
    send to it returns normally and adds exactly the message to the texts
    of its channel; every other channel and both collections are as
    before the connection. *)
Theorem send_after_connect_is_delivered
  (h : nat) (uid : string) (message : text) (w : World) :
  exists w',
    (connect h uid ;; send_personal_message message uid) w = (Return tt, w')
    /\ active_connections w' !! uid = Some h
    /\ sent (websocket_at w' h) = sent (websocket_at w h) ++ [message]
    /\ (forall h', h' <> h -> websocket_at w' h' = websocket_at w h')
    /\ interview_sessions w' = interview_sessions w
    /\ users w' = users w.
Proof.
  destruct (connect_spec h uid w) as (w1 & Hc & Hreg & Hh & Hother & Hs & Hu).
  assert (Hentry : active_connections w1 !! uid = Some h)
    by (rewrite Hreg; apply lookup_insert_eq).
  assert (Hstate : client_state (websocket_at w1 h) = CONNECTED) by now rewrite Hh.
  destruct (update_websocket_spec h
              (fun ws => {| client_state := client_state ws; sent := sent ws ++ [message] |}) w1)
    as (w2 & Hsend & Hh2 & Hother2 & Hreg2 & Hs2 & Hu2).
  exists w2. split.
  - unfold bind. rewrite Hc.
    rewrite (send_personal_message_connected _ _ _ _ Hentry Hstate). exact Hsend.
  - rewrite Hreg2, Hh2, Hh, Hs2, Hu2. simpl. repeat split; try assumption.
    intros h' Hh'. rewrite Hother2 by exact Hh'. now apply Hother.
Qed.

(** X2: the last connection of an identity wins.  After a second channel
    is connected under the same identity, a registry send reaches the
    second channel only; the first is neither closed nor written to. *)
Theorem last_connection_wins
  (h1 h2 : nat) (uid : string) (message : text) (w : World) :
  h1 <> h2 ->
  exists w',
    (connect h1 uid ;; connect h2 uid ;; send_personal_message message uid) w
    = (Return tt, w')
    /\ active_connections w' !! uid = Some h2
    /\ sent (websocket_at w' h2) = sent (websocket_at w h2) ++ [message]
    /\ sent (websocket_at w' h1) = sent (websocket_at w h1)
    /\ client_state (websocket_at w' h1) = CONNECTED.
Proof.
  intros Hne.
  destruct (connect_spec h1 uid w) as (w1 & Hc1 & Hreg1 & Hh1 & Hother1 & _).
  destruct (connect_spec h2 uid w1) as (w2 & Hc2 & Hreg2 & Hh2 & Hother2 & _).
  assert (Hentry : active_connections w2 !! uid = Some h2)
    by (rewrite Hreg2; apply lookup_insert_eq).
  assert (Hstate : client_state (websocket_at w2 h2) = CONNECTED) by now rewrite Hh2.
  destruct (update_websocket_spec h2
              (fun ws => {| client_state := client_state ws; sent := sent ws ++ [message] |}) w2)
    as (w3 & Hsend & Hh3 & Hother3 & Hreg3 & _).
  exists w3. split.
  - unfold bind. rewrite Hc1, Hc2.
    rewrite (send_personal_message_connected _ _ _ _ Hentry Hstate). exact Hsend.
  - rewrite Hreg3, Hh3, Hh2. simpl.
    rewrite (Hother1 h2) by congruence.
    rewrite (Hother3 h1), (Hother2 h1), Hh1 by congruence.
    repeat split; try reflexivity. exact Hentry.
Qed.

(** X3: connecting an identity and then disconnecting it leaves the
    registry as it was without that identity; the channel itself is not
    closed by the manager, yet a registry send to the identity is now
    dropped. *)
Theorem connect_then_disconnect_unregisters
  (h : nat) (uid : string) (message : text) (w : World) :
  exists w',
    (connect h uid ;; disconnect uid) w = (Return tt, w')
    /\ active_connections w' = delete uid (active_connections w)
    /\ client_state (websocket_at w' h) = CONNECTED
    /\ send_personal_message message uid w' = (Return tt, w').
Proof.
  destruct (connect_spec h uid w) as (w1 & Hc & Hreg & Hh & _).
  assert (Hentry : active_connections w1 !! uid = Some h)
    by (rewrite Hreg; apply lookup_insert_eq).
  eexists. split.
  - unfold bind at 1. rewrite Hc. unfold disconnect, bind, read, modify.
    rewrite Hentry. reflexivity.
  - simpl. rewrite Hreg, delete_insert_eq. split; [reflexivity|]. split.
    + unfold websocket_at in *. simpl. now rewrite Hh.
    + apply send_personal_message_unregistered. simpl. apply lookup_delete_eq.
Qed.

(** X4: when a client goes away, its endpoint returns, marks its own
    channel disconnected and removes the entry of its identity; the
    frames that would follow are never read, and no other channel and
    neither collection changes. *)
Theorem client_disconnect_ends_endpoint
  (h : nat) (uid : string) (rest : list frame) (w : World) :
  exists w',
    guarded_loop h uid (Disconnect :: rest) w = (Return Finished, w')
    /\ active_connections w' !! uid = None
    /\ (forall other, other <> uid -> active_connections w' !! other = active_connections w !! other)
    /\ client_state (websocket_at w' h) = DISCONNECTED
    /\ sent (websocket_at w' h) = sent (websocket_at w h)
    /\ (forall h', h' <> h -> websocket_at w' h' = websocket_at w h')
    /\ interview_sessions w' = interview_sessions w
    /\ users w' = users w.
Proof.
  destruct (guarded_loop_disconnect_spec h uid rest w)
    as (w' & Hrun & Hreg & Hh & Hother & Hs & Hu).
  exists w'. rewrite Hreg, Hh. simpl. repeat split; try assumption.
  - apply lookup_delete_eq.
  - intros other Hne. now apply lookup_delete_ne.
Qed.

(** X5: the entry removed on a disconnect is the identity's current one,
    whichever channel it names.  If an identity opened a second channel and
    the first one then goes away, the identity loses its entry although the
    second channel is still connected, and registry sends to it are
    dropped from then on. *)
Theorem stale_disconnect_unregisters_live_channel
  (h1 h2 : nat) (uid : string) (message : text) (w : World) :
  h1 <> h2 ->
  exists w',
    (websocket_endpoint h1 uid [] ;; websocket_endpoint h2 uid [] ;;
     guarded_loop h1 uid [Disconnect]) w = (Return Finished, w')
    /\ client_state (websocket_at w' h2) = CONNECTED
    /\ active_connections w' !! uid = None
    /\ send_personal_message message uid w' = (Return tt, w').
Proof.
  intros Hne.
  destruct (connect_spec h1 uid w) as (w1 & Hc1 & _).
  destruct (connect_spec h2 uid w1) as (w2 & Hc2 & _ & Hh2 & _).
  destruct (guarded_loop_disconnect_spec h1 uid [] w2)
    as (w3 & Hrun & Hreg & _ & Hother & _).
  assert (Hgone : active_connections w3 !! uid = None)
    by (rewrite Hreg; apply lookup_delete_eq).
  exists w3. split.
  - unfold bind. rewrite websocket_endpoint_opens, Hc1. cbn [snd].
    rewrite websocket_endpoint_opens, Hc2. cbn [snd]. exact Hrun.
  - rewrite (Hother h2) by congruence. rewrite Hh2. simpl.
    repeat split; [exact Hgone | now apply send_personal_message_unregistered].
Qed.

(** ** Joining a session *)

Lemma update_first_fixed {A} (p : A -> bool) (f : A -> A) (l : list A) :
  (forall x, f x = x) -> update_first p f l = l.
Proof.
  intros Hf. induction l as [|x l IH]; simpl; [reflexivity|].
  destruct (p x); [now rewrite Hf | now rewrite IH].
Qed.

Lemma update_first_twice {A} (p : A -> bool) (f g : A -> A) (l : list A) :
  (forall x, p (f x) = p x) ->
  update_first p g (update_first p f l) = update_first p (fun x => g (f x)) l.
Proof.
  intros Hf. induction l as [|x l IH]; simpl; [reflexivity|].
  destruct (p x) eqn:Hx; simpl.
  - now rewrite Hf, Hx.
  - now rewrite Hx, IH.
Qed.

Lemma update_first_found {A} (p : A -> bool) (f g : A -> A) (l : list A) :
  (forall x, find p l = Some x -> f x = g x) ->
  update_first p f l = update_first p g l.
Proof.
  induction l as [|x l IH]; simpl; [reflexivity|].
  destruct (p x); intros Hfg; [now rewrite Hfg | now rewrite IH].
Qed.

Lemma apply_set_nothing (s : InterviewSession) : apply_set no_update s = s.
Proof. now destruct s. Qed.

Lemma join_update_data_role (session : InterviewSession) (uid role : string) :
  role = "candidate" \/ role = "hr" ->
  is_empty_update (join_update_data session uid role) = false.
Proof.
  intros [-> | ->]; unfold join_update_data; simpl.
  - now destruct (truthy_str (hr_id session)).
  - now destruct (truthy_str (candidate_id session)).
Qed.

Lemma join_update_data_other (session : InterviewSession) (uid role : string) :
  role <> "candidate" -> role <> "hr" ->
  join_update_data session uid role = no_update.
Proof.
  intros Hc Hh. unfold join_update_data.
  apply String.eqb_neq in Hc, Hh. now rewrite Hc, Hh.
Qed.

Lemma join_session_missing (sid uid role : string) (w : World) :
  find_session (JStr sid) w = None ->
  join_session sid uid role w = (Raise (HTTPException 404 "Session not found"), w).
Proof.
  intros Hnone. unfold join_session. rewrite find_one_session_str.
  unfold bind, read. now rewrite Hnone.
Qed.

(** [join_session] on a session that exists. *)
Lemma join_session_found (sid uid role : string) (w : World) (session : InterviewSession) :
  find_session (JStr sid) w = Some session ->
  join_session sid uid role w =
  if is_empty_update (join_update_data session uid role) && rejects_empty_set
  then (Raise WriteError, w)
  else
    (Return {| jr_message := "Joined session successfully";
               jr_status := default "waiting" (set_status (join_update_data session uid role)) |},
     set_users
       (update_first (fun u => String.eqb uid (user_id u)) (apply_user_session sid) (users w))
       (set_interview_sessions
          (update_first (fun s => bson_match (JStr sid) (session_id s))
             (apply_set (join_update_data session uid role)) (interview_sessions w)) w)).
Proof.
  intros Hfound. unfold join_session. rewrite find_one_session_str.
  unfold bind, read. rewrite Hfound.
  unfold update_one_session_set.
  destruct (is_empty_update _ && rejects_empty_set); reflexivity.
Qed.

Lemma find_session_after_join
  (sid uid role : string) (w : World) (session : InterviewSession) (l : list User) :
  find_session (JStr sid) w = Some session ->
  find_session (JStr sid)
    (set_users l
       (set_interview_sessions
          (update_first (fun s => bson_match (JStr sid) (session_id s))
             (apply_set (join_update_data session uid role)) (interview_sessions w)) w))
  = Some (apply_set (join_update_data session uid role) session).
Proof.
  intros Hfound. unfold find_session in *. simpl.
  rewrite find_update_first_same by reflexivity. now rewrite Hfound.
Qed.

(** X6: joining a session that does not exist is a not-found error and
    changes nothing: no session is created and the user document keeps
    its session identity. *)
Theorem join_unknown_session_is_not_found (sid uid role : string) (w : World) :
  (forall s, In s (interview_sessions w) -> session_id s <> sid) ->
  join_session sid uid role w = (Raise (HTTPException 404 "Session not found"), w).
Proof. intros Habsent. apply join_session_missing. now apply absent_session. Qed.

(** X7: in a history whose joins all name non-empty identities, the
    status a join as candidate or interviewer answers with is the status
    the session has afterwards. *)
Theorem join_answer_is_stored_status
  (events : list event) (sid uid role : string) (answer : JoinResponse) (w' : World) :
  Forall joins_with_identity events ->
  role = "candidate" \/ role = "hr" ->
  join_session sid uid role (run events initial_world) = (Return answer, w') ->
  exists session,
    find_session (JStr sid) w' = Some session /\ status session = jr_status answer.
Proof.
  intros Hevents Hrole. set (w := run events initial_world).
  destruct (find_session (JStr sid) w) as [s0|] eqn:Hfound;
    [|rewrite (join_session_missing _ _ _ _ Hfound); discriminate].
  rewrite (join_session_found _ _ _ _ _ Hfound), (join_update_data_role _ _ _ Hrole).
  simpl. intros [= <- <-].
  rewrite (find_session_after_join _ _ _ _ _ _ Hfound). eexists. split; [reflexivity|].
  assert (Hok : well_joined s0).
  { pose proof (run_keeps_well_joined events initial_world Hevents (List.Forall_nil _)) as Hall.
    rewrite List.Forall_forall in Hall. apply Hall.
    unfold find_session in Hfound. now apply find_some in Hfound as [? _]. }
  destruct Hok as (Hiff & Hstatus & Hc & Hh).
  assert (Hwaiting : candidate_id s0 = None \/ hr_id s0 = None -> status s0 = "waiting").
  { intros Hslot. destruct Hstatus as [Hactive|]; [|assumption].
    apply Hiff in Hactive. destruct Hslot as [E|E]; rewrite E in Hactive; tauto. }
  simpl. unfold join_update_data.
  destruct Hrole as [-> | ->]; simpl.
  - destruct (truthy_str (hr_id s0)) eqn:E; simpl; [reflexivity|].
    apply Hwaiting. right. now apply truthy_str_none.
  - destruct (truthy_str (candidate_id s0)) eqn:E; simpl; [reflexivity|].
    apply Hwaiting. left. now apply truthy_str_none.
Qed.

(** X8: a join under a role other than "candidate" and "hr" sets no
    participant.  A store that refuses an empty [$set] makes it fail with
    nothing changed; otherwise it succeeds, answers "waiting" whatever the
    status of the session is, and changes no session, channel or registry
    entry. *)
Theorem join_with_other_role_changes_no_session
  (sid uid role : string) (w : World) (session : InterviewSession) :
  role <> "candidate" -> role <> "hr" ->
  find_session (JStr sid) w = Some session ->
  if rejects_empty_set
  then join_session sid uid role w = (Raise WriteError, w)
  else exists w',
      join_session sid uid role w
      = (Return {| jr_message := "Joined session successfully"; jr_status := "waiting" |}, w')
      /\ interview_sessions w' = interview_sessions w
      /\ active_connections w' = active_connections w
      /\ websockets w' = websockets w.
Proof.
  intros Hc Hh Hfound. rewrite (join_session_found _ _ _ _ _ Hfound).
  rewrite (join_update_data_other _ _ _ Hc Hh). simpl.
  destruct rejects_empty_set; [reflexivity|].
  eexists. split; [reflexivity|]. simpl.
  rewrite update_first_fixed by apply apply_set_nothing. now repeat split.
Qed.

(** X9: a join as candidate or interviewer of a session that exists always
    succeeds and puts the joining identity in the slot of that role,
    whoever held it; the other slot, the messages, the language and the
    creation time of the session are untouched. *)
Theorem join_overwrites_slot
  (sid uid role : string) (w : World) (session : InterviewSession) :
  role = "candidate" \/ role = "hr" ->
  find_session (JStr sid) w = Some session ->
  exists answer w' session',
    join_session sid uid role w = (Return answer, w')
    /\ find_session (JStr sid) w' = Some session'
    /\ (role = "candidate" ->
        candidate_id session' = Some uid /\ hr_id session' = hr_id session)
    /\ (role = "hr" ->
        hr_id session' = Some uid /\ candidate_id session' = candidate_id session)
    /\ messages session' = messages session
    /\ sign_language session' = sign_language session
    /\ created_at session' = created_at session.
Proof.
  intros Hrole Hfound.
  rewrite (join_session_found _ _ _ _ _ Hfound), (join_update_data_role _ _ _ Hrole).
  simpl. do 3 eexists. split; [reflexivity|].
  split; [now apply find_session_after_join|].
  unfold join_update_data.
  destruct Hrole as [-> | ->]; simpl.
  - destruct (truthy_str (hr_id session)); simpl; repeat split; discriminate.
  - destruct (truthy_str (candidate_id session)); simpl; repeat split; discriminate.
Qed.

Lemma update_first_again {A} (p : A -> bool) (f : A -> A) (l : list A) :
  (forall x, p (f x) = p x) -> (forall x, f (f x) = f x) ->
  update_first p f (update_first p f l) = update_first p f l.
Proof.
  intros Hp Hf. rewrite update_first_twice by exact Hp.
  apply update_first_found. intros x _. apply Hf.
Qed.

Lemma find_user_after_join (uid sid other : string) (l : list User) :
  find (fun u => String.eqb other (user_id u))
    (update_first (fun u => String.eqb uid (user_id u)) (apply_user_session sid) l)
  = if String.eqb other uid
    then option_map (apply_user_session sid) (find (fun u => String.eqb other (user_id u)) l)
    else find (fun u => String.eqb other (user_id u)) l.
Proof.
  destruct (String.eqb_spec other uid) as [->|Hne].
  - now apply find_update_first_same.
  - apply find_update_first_other; [reflexivity|].
    intros x ->%String.eqb_eq. apply String.eqb_neq. congruence.
Qed.

Lemma get_user_found (uid : string) (w : World) (user : User) :
  fst (get_user uid w) = Return user
  <-> find (fun u => String.eqb uid (user_id u)) (users w) = Some user.
Proof.
  unfold get_user, find_one_user, bind, read, ret, raise.
  destruct (find _ (users w)); simpl; split; congruence.
Qed.

Lemma users_after_join (sid uid role : string) (w w' : World) (answer : JoinResponse) :
  join_session sid uid role w = (Return answer, w') ->
  users w' = update_first (fun u => String.eqb uid (user_id u)) (apply_user_session sid) (users w).
Proof.
  destruct (find_session (JStr sid) w) as [session|] eqn:Hfound.
  - rewrite (join_session_found _ _ _ _ _ Hfound).
    destruct (_ && _); [discriminate|]. now intros [= _ <-].
  - rewrite (join_session_missing _ _ _ _ Hfound). discriminate.
Qed.

(** X10: a join that succeeds records the session on the joining user, and
    on no other user; it does not check that the user exists: if no user
    has the joining identity, the user collection is unchanged. *)
Theorem join_records_session_on_user
  (sid uid role : string) (w w' : World) (answer : JoinResponse) :
  join_session sid uid role w = (Return answer, w') ->
  (forall user, fst (get_user uid w) = Return user ->
     fst (get_user uid w') = Return (apply_user_session sid user))
  /\ (forall other, other <> uid -> fst (get_user other w') = fst (get_user other w))
  /\ ((forall u, In u (users w) -> user_id u <> uid) -> users w' = users w).
Proof.
  intros Hjoin. pose proof (users_after_join _ _ _ _ _ _ Hjoin) as Husers.
  split; [|split].
  - intros user Huser. apply get_user_found in Huser. apply get_user_found.
    rewrite Husers, find_user_after_join, String.eqb_refl. now rewrite Huser.
  - intros other Hne. unfold get_user, find_one_user, bind, read.
    rewrite Husers, find_user_after_join.
    apply String.eqb_neq in Hne. rewrite Hne.
    now destruct (find _ (users w)).
  - intros Habsent. rewrite Husers. apply update_first_none, find_all_false.
    intros u Hu. apply String.eqb_neq. intros ->. now apply (Habsent u).
Qed.

(** X11: sending the same join again changes nothing more and gets the
    same answer, be it a success or an error. *)
Theorem join_again_changes_nothing
  (sid uid role : string) (w w' : World) (answer : result JoinResponse) :
  join_session sid uid role w = (answer, w') ->
  join_session sid uid role w' = (answer, w').
Proof.
  destruct (find_session (JStr sid) w) as [session|] eqn:Hfound.
  - rewrite (join_session_found _ _ _ _ _ Hfound).
    destruct (_ && _) eqn:Hempty.
    + intros [= <- <-]. now rewrite (join_session_found _ _ _ _ _ Hfound), Hempty.
    + intros [= <- <-].
      set (u := join_update_data session uid role) in *.
      assert (Hu : join_update_data (apply_set u session) uid role = u).
      { unfold u, join_update_data.
        destruct (String.eqb_spec role "candidate") as [->|_]; simpl.
        - destruct (truthy_str (hr_id session)) eqn:E; simpl; now rewrite E.
        - destruct (String.eqb_spec role "hr") as [->|_]; simpl; [|reflexivity].
          destruct (truthy_str (candidate_id session)) eqn:E; simpl; now rewrite E. }
      rewrite (join_session_found _ _ _ _ (apply_set u session))
        by now apply find_session_after_join.
      rewrite Hu. fold u. rewrite Hempty. simpl.
      rewrite !update_first_again; try reflexivity.
      intros x. unfold apply_set. simpl.
      destruct (set_candidate_id u), (set_hr_id u), (set_status u); reflexivity.
  - rewrite (join_session_missing _ _ _ _ Hfound). intros [= <- <-].
    now apply join_session_missing.
Qed.

(** X12: the candidate and the interviewer may join in either order.  For
    non-empty identities both orders leave the same session collection,
    and if the session exists it ends up active with both identities set. *)
Theorem joins_commute (sid c h : string) (w : World) :
  c <> "" -> h <> "" ->
  interview_sessions (snd (join_session sid h "hr" (snd (join_session sid c "candidate" w))))
  = interview_sessions (snd (join_session sid c "candidate" (snd (join_session sid h "hr" w))))
  /\ (forall session, find_session (JStr sid) w = Some session ->
      exists session',
        find_session (JStr sid)
          (snd (join_session sid h "hr" (snd (join_session sid c "candidate" w))))
        = Some session'
        /\ candidate_id session' = Some c
        /\ hr_id session' = Some h
        /\ status session' = "active").
Proof.
  intros Hc Hh. apply String.eqb_neq in Hc, Hh.
  destruct (find_session (JStr sid) w) as [s|] eqn:Hfound.
  - pose proof (join_update_data_role s c "candidate" (or_introl eq_refl)) as E1.
    pose proof (join_update_data_role s h "hr" (or_intror eq_refl)) as E2.
    rewrite (join_session_found sid c "candidate" w s Hfound), E1.
    rewrite (join_session_found sid h "hr" w s Hfound), E2. cbn [andb snd].
    set (u1 := join_update_data s c "candidate").
    set (v1 := join_update_data s h "hr").
    rewrite (join_session_found sid h "hr" _ (apply_set u1 s))
      by now apply find_session_after_join.
    rewrite (join_session_found sid c "candidate" _ (apply_set v1 s))
      by now apply find_session_after_join.
    rewrite !join_update_data_role by auto. cbn [andb snd].
    set (u2 := join_update_data (apply_set u1 s) h "hr").
    set (v2 := join_update_data (apply_set v1 s) c "candidate").
    assert (Hsame : apply_set u2 (apply_set u1 s) = apply_set v2 (apply_set v1 s)
                    /\ candidate_id (apply_set u2 (apply_set u1 s)) = Some c
                    /\ hr_id (apply_set u2 (apply_set u1 s)) = Some h
                    /\ status (apply_set u2 (apply_set u1 s)) = "active").
    { unfold u2, v2, u1, v1, join_update_data, apply_set. simpl.
      destruct (truthy_str (hr_id s)), (truthy_str (candidate_id s)); simpl;
        rewrite ?Hc, ?Hh; simpl; repeat split; reflexivity. }
    destruct Hsame as (Hsame & Hcand & Hhr & Hstatus). split.
    + simpl. rewrite !update_first_twice by reflexivity.
      apply update_first_found. intros x Hx. unfold find_session in Hfound.
      rewrite Hfound in Hx. injection Hx as <-. exact Hsame.
    + intros session [= <-]. exists (apply_set u2 (apply_set u1 s)).
      split; [|now repeat split].
      now apply find_session_after_join, find_session_after_join.
  - rewrite !(join_session_missing _ _ _ _ Hfound). cbn [snd].
    split; [reflexivity|]. discriminate.
Qed.

(** ** The persisted-message endpoint *)

(** A turn of the [for] loop on a [message.dict()] never sends: it either
    passes or stops at [json.dumps]. *)
Lemma deliver_message_dict (m : Message) (participant_id : option string) (w : World) :
  deliver (MessageDict m) participant_id w = (Return tt, w)
  \/ deliver (MessageDict m) participant_id w = (Raise TypeError, w).
Proof.
  unfold deliver. destruct participant_id as [p|]; [|now left].
  destruct (truthy_str (Some p)); [|now left].
  unfold bind, read. destruct (active_connections w !! p); [|now left].
  destruct (decide _); [now right | now left].
Qed.

Lemma deliver_message_dict_reachable
  (m : Message) (p : string) (h : nat) (w : World) :
  p <> "" ->
  active_connections w !! p = Some h ->
  client_state (websocket_at w h) = CONNECTED ->
  deliver (MessageDict m) (Some p) w = (Raise TypeError, w).
Proof.
  intros Hp Hentry Hstate. unfold deliver. simpl.
  apply String.eqb_neq in Hp. rewrite Hp. simpl.
  unfold bind, read. rewrite Hentry. now destruct (decide _).
Qed.

Lemma deliver_message_dict_unreachable
  (m : Message) (participant_id : option string) (w : World) :
  (forall p, participant_id = Some p -> p <> "" -> unavailable w p) ->
  deliver (MessageDict m) participant_id w = (Return tt, w).
Proof.
  intros Hun. unfold deliver. destruct participant_id as [p|]; [|reflexivity].
  simpl. destruct (String.eqb_spec p "") as [->|Hp]; [reflexivity|]. simpl.
  unfold bind, read.
  destruct (active_connections w !! p) as [h|] eqn:Hentry; [|reflexivity].
  destruct (decide _) as [Hstate|]; [|reflexivity].
  now destruct (Hun p eq_refl Hp h Hentry).
Qed.

Lemma send_to_session_message_dict (m : Message) (sid : string) (w : World) :
  send_to_session (MessageDict m) (JStr sid) w = (Return tt, w)
  \/ send_to_session (MessageDict m) (JStr sid) w = (Raise TypeError, w).
Proof.
  unfold send_to_session. rewrite find_one_session_str. unfold bind, read.
  destruct (find_session (JStr sid) w) as [session|]; [|now left]. simpl. unfold bind.
  destruct (deliver_message_dict m (candidate_id session) w) as [-> | ->]; [|now right].
  destruct (deliver_message_dict m (hr_id session) w) as [-> | ->]; [now left | now right].
Qed.

(** The world once the message is pushed. *)
Lemma send_message_pushes (sid : string) (m : Message) (w : World) :
  snd (send_message sid m w)
  = set_interview_sessions
      (update_first (fun s => bson_match (JStr sid) (session_id s)) (apply_push m)
         (interview_sessions w)) w.
Proof.
  unfold send_message, bind, update_one_session_push, modify.
  match goal with |- context [send_to_session ?a (JStr ?b) ?c] =>
    destruct (send_to_session_message_dict m b c) as [-> | ->] end; reflexivity.
Qed.

Lemma find_session_pushed (sid : string) (m : Message) (w : World) (session : InterviewSession) :
  find_session (JStr sid) w = Some session ->
  find_session (JStr sid)
    (set_interview_sessions
       (update_first (fun s => bson_match (JStr sid) (session_id s)) (apply_push m)
          (interview_sessions w)) w)
  = Some (apply_push m session).
Proof.
  intros Hfound. unfold find_session in *. simpl.
  rewrite find_update_first_same by reflexivity. now rewrite Hfound.
Qed.

(** X13: the persisted-message endpoint never hands anything to a live
    channel.  Whatever the session and the message, every channel, the
    registry and the users are as before, and the call either answers with
    the acknowledgment or raises the [TypeError] of [json.dumps]. *)
Theorem persisted_message_is_never_pushed (sid : string) (m : Message) (w : World) :
  websockets (snd (send_message sid m w)) = websockets w
  /\ active_connections (snd (send_message sid m w)) = active_connections w
  /\ users (snd (send_message sid m w)) = users w
  /\ (fst (send_message sid m w) = Return "Message sent successfully"
      \/ fst (send_message sid m w) = Raise TypeError).
Proof.
  rewrite send_message_pushes. repeat split.
  unfold send_message, bind, update_one_session_push, modify.
  match goal with |- context [send_to_session ?a (JStr ?b) ?c] =>
    destruct (send_to_session_message_dict m b c) as [-> | ->] end; auto.
Qed.

(** X14: if the session exists and one of its participants has a connected
    channel in the registry, posting a message raises [TypeError]: the
    message has been appended to the session, and no channel has received
    it. *)
Theorem persisted_message_to_connected_participant_raises
  (sid p : string) (h : nat) (m : Message) (w : World) (session : InterviewSession) :
  find_session (JStr sid) w = Some session ->
  candidate_id session = Some p \/ hr_id session = Some p ->
  p <> "" ->
  active_connections w !! p = Some h ->
  client_state (websocket_at w h) = CONNECTED ->
  exists w' session',
    send_message sid m w = (Raise TypeError, w')
    /\ find_session (JStr sid) w' = Some session'
    /\ messages session' = messages session ++ [stored_message m]
    /\ websockets w' = websockets w.
Proof.
  intros Hfound Hrole Hp Hentry Hstate.
  pose proof (find_session_pushed sid m w session Hfound) as Hfound'.
  do 2 eexists. split; [|split; [exact Hfound'|now repeat split]].
  unfold send_message, bind at 1, update_one_session_push, modify.
  unfold bind at 1. unfold send_to_session. rewrite find_one_session_str.
  unfold bind at 1, read.
  rewrite Hfound'. cbn [for_each]. unfold bind.
  destruct Hrole as [Hrole | Hrole].
  - change (candidate_id (apply_push m session)) with (candidate_id session).
    rewrite Hrole, (deliver_message_dict_reachable m p h) by assumption. reflexivity.
  - change (hr_id (apply_push m session)) with (hr_id session).
    rewrite Hrole.
    match goal with |- context [deliver (MessageDict m) ?o ?c] =>
      destruct (deliver_message_dict m o c) as [-> | ->] end; [|reflexivity].
    rewrite (deliver_message_dict_reachable m p h) by assumption. reflexivity.
Qed.

(** X15: if the session exists and none of its participants has a
    connected channel in the registry, posting a message appends it to the
    session and answers with the acknowledgment. *)
Theorem persisted_message_without_listeners_is_stored
  (sid : string) (m : Message) (w : World) (session : InterviewSession) :
  find_session (JStr sid) w = Some session ->
  (forall p, candidate_id session = Some p \/ hr_id session = Some p ->
     p <> "" -> unavailable w p) ->
  exists w' session',
    send_message sid m w = (Return "Message sent successfully", w')
    /\ find_session (JStr sid) w' = Some session'
    /\ messages session' = messages session ++ [stored_message m]
    /\ candidate_id session' = candidate_id session
    /\ hr_id session' = hr_id session
    /\ status session' = status session.
Proof.
  intros Hfound Hun.
  pose proof (find_session_pushed sid m w session Hfound) as Hfound'.
  do 2 eexists. split; [|split; [exact Hfound'|now repeat split]].
  unfold send_message, bind at 1, update_one_session_push, modify.
  unfold bind at 1. unfold send_to_session. rewrite find_one_session_str.
  unfold bind at 1, read.
  rewrite Hfound'. cbn [for_each]. unfold bind.
  rewrite deliver_message_dict_unreachable
    by (intros p Hp; apply (Hun p); left; exact Hp).
  rewrite deliver_message_dict_unreachable
    by (intros p Hp; apply (Hun p); right; exact Hp).
  reflexivity.
Qed.

(** ** What a history keeps of a session *)

Lemma evolves_refl (s : InterviewSession) : evolves s s.
Proof. unfold evolves. repeat split; auto. exists []. now rewrite app_nil_r. Qed.

Lemma evolves_trans (s1 s2 s3 : InterviewSession) :
  evolves s1 s2 -> evolves s2 s3 -> evolves s1 s3.
Proof.
  intros (Hi & Hl & Hc & Hs & Hcand & Hhr & more1 & Hm1)
         (Hi' & Hl' & Hc' & Hs' & Hcand' & Hhr' & more2 & Hm2).
  unfold evolves. repeat split; try congruence; auto.
  exists (more1 ++ more2). now rewrite Hm2, Hm1, app_assoc.
Qed.

Lemma join_update_data_status (session : InterviewSession) (uid role : string) :
  set_status (join_update_data session uid role) = None
  \/ set_status (join_update_data session uid role) = Some "active".
Proof.
  unfold join_update_data.
  destruct (String.eqb role "candidate"), (String.eqb role "hr"),
    (truthy_str (hr_id session)), (truthy_str (candidate_id session)); simpl; auto.
Qed.

Lemma evolves_set (session s : InterviewSession) (uid role : string) :
  evolves s (apply_set (join_update_data session uid role) s).
Proof.
  unfold evolves. simpl. repeat split.
  - destruct (join_update_data_status session uid role) as [-> | ->]; simpl; auto.
  - destruct (set_candidate_id _); [discriminate | auto].
  - destruct (set_hr_id _); [discriminate | auto].
  - exists []. now rewrite app_nil_r.
Qed.

Lemma evolves_push (m : Message) (s : InterviewSession) : evolves s (apply_push m s).
Proof. unfold evolves. simpl. repeat split; auto. now eexists. Qed.

Lemma step_session_evolves (sid : string) (e : event) (w : World) (s : InterviewSession) :
  find_session (JStr sid) w = Some s ->
  exists s', find_session (JStr sid) (step w e) = Some s' /\ evolves s s'.
Proof.
  intros Hfound. unfold find_session in *. rewrite sessions_after_step.
  assert (Hsame : exists s', find (fun x => bson_match (JStr sid) (session_id x))
                               (interview_sessions w) = Some s' /\ evolves s s')
    by (exists s; split; [exact Hfound | apply evolves_refl]).
  assert (Hupd : forall sid' f,
            (forall x, session_id (f x) = session_id x) -> evolves s (f s) ->
            exists s', find (fun x => bson_match (JStr sid) (session_id x))
                         (update_first (fun x => bson_match (JStr sid') (session_id x)) f
                            (interview_sessions w)) = Some s'
                       /\ evolves s s').
  { intros sid' f Hf Hev. destruct (String.eqb sid' sid) eqn:Hsid.
    - apply String.eqb_eq in Hsid as ->.
      rewrite find_update_first_same by (intros x; now rewrite Hf).
      rewrite Hfound. exists (f s). now split.
    - rewrite find_update_first_other.
      + exists s. split; [exact Hfound | apply evolves_refl].
      + intros x. now rewrite Hf.
      + intros x. rewrite !bson_match_str. intros ->%String.eqb_eq. exact Hsid. }
  destruct e as [fresh now d|uid|fresh now d|sid'|sid' uid role|sid' m|h uid|h uid f];
    simpl; try exact Hsame.
  - exists s. split; [now apply find_app_some | apply evolves_refl].
  - destruct (find_session (JStr sid') w) as [session|]; [|exact Hsame].
    destruct (_ || _); [exact Hsame|].
    apply Hupd; [reflexivity | apply evolves_set].
  - destruct (is_segment sid'); [|exact Hsame].
    apply Hupd; [reflexivity | apply evolves_push].
Qed.

Lemma run_session_evolves (sid : string) (events : list event) (w : World) (s : InterviewSession) :
  find_session (JStr sid) w = Some s ->
  exists s', find_session (JStr sid) (run events w) = Some s' /\ evolves s s'.
Proof.
  revert w s. induction events as [|e events IH]; intros w s Hfound.
  - exists s. split; [exact Hfound | apply evolves_refl].
  - destruct (step_session_evolves sid e w s Hfound) as (s1 & Hs1 & He1).
    destruct (IH (step w e) s1 Hs1) as (s2 & Hs2 & He2).
    exists s2. split; [exact Hs2 | now apply (evolves_trans s s1 s2)].
Qed.

Lemma get_session_returns (sid : string) (w : World) (session : InterviewSession) :
  find_session (JStr sid) w = Some session ->
  get_session sid w = (Return session, w).
Proof.
  intros Hfound. unfold get_session. rewrite find_one_session_str.
  unfold bind, read. now rewrite Hfound.
Qed.

(** X16: no history undoes a join.  A session that reads as active reads as
    active after any further events, and a participant slot that is filled
    stays filled: nothing sets a status back to "waiting" or a slot back
    to null, and no session is ever removed. *)
Theorem history_never_undoes_a_join
  (sid : string) (events : list event) (w : World) (session : InterviewSession) :
  get_session sid w = (Return session, w) ->
  exists session',
    get_session sid (run events w) = (Return session', run events w)
    /\ (status session = "active" -> status session' = "active")
    /\ (candidate_id session <> None -> candidate_id session' <> None)
    /\ (hr_id session <> None -> hr_id session' <> None).
Proof.
  intros Hread.
  assert (Hfound : find_session (JStr sid) w = Some session)
    by (apply get_session_found; now rewrite Hread).
  destruct (run_session_evolves sid events w session Hfound)
    as (s' & Hs' & _ & _ & _ & Hstatus & Hcand & Hhr & _).
  exists s'. split; [now apply get_session_returns | now repeat split].
Qed.

(** X17: the identity, the language tag and the creation time of a session
    are fixed for good: whatever events follow, a read returns them as
    they were. *)
Theorem session_identity_is_fixed
  (sid : string) (events : list event) (w : World) (session : InterviewSession) :
  get_session sid w = (Return session, w) ->
  exists session',
    get_session sid (run events w) = (Return session', run events w)
    /\ session_id session' = session_id session
    /\ sign_language session' = sign_language session
    /\ created_at session' = created_at session.
Proof.
  intros Hread.
  assert (Hfound : find_session (JStr sid) w = Some session)
    by (apply get_session_found; now rewrite Hread).
  destruct (run_session_evolves sid events w session Hfound)
    as (s' & Hs' & Hid & Hlang & Hcreated & _).
  exists s'. split; [now apply get_session_returns | now repeat split].
Qed.

(** X18: a join or a persisted message addressed to one session leaves
    what every other session identity reads unchanged. *)
Theorem other_sessions_are_untouched
  (sid sid' uid role : string) (m : Message) (w : World) :
  sid' <> sid ->
  find_session (JStr sid') (snd (join_session sid uid role w)) = find_session (JStr sid') w
  /\ find_session (JStr sid') (snd (send_message sid m w)) = find_session (JStr sid') w.
Proof.
  intros Hne.
  assert (Hother : forall f,
            (forall x, session_id (f x) = session_id x) ->
            find (fun x => bson_match (JStr sid') (session_id x))
              (update_first (fun x => bson_match (JStr sid) (session_id x)) f
                 (interview_sessions w))
            = find (fun x => bson_match (JStr sid') (session_id x)) (interview_sessions w)).
  { intros f Hf. apply find_update_first_other.
    - intros x. now rewrite Hf.
    - intros x. rewrite !bson_match_str. intros ->%String.eqb_eq.
      apply String.eqb_neq. congruence. }
  split.
  - destruct (find_session (JStr sid) w) as [session|] eqn:Hfound.
    + rewrite (join_session_found _ _ _ _ _ Hfound).
      destruct (_ && _); [reflexivity|]. unfold find_session. simpl. now apply Hother.
    + now rewrite (join_session_missing _ _ _ _ Hfound).
  - rewrite send_message_pushes. unfold find_session. simpl. now apply Hother.
Qed.

(** ** Creating and reading back *)

Lemma find_app_none {A} (p : A -> bool) (l : list A) (x : A) :
  find p l = None -> find p (l ++ [x]) = if p x then Some x else None.
Proof.
  induction l as [|z l IH]; simpl; [reflexivity|].
  destruct (p z); [discriminate | exact IH].
Qed.

(** X19: a session created under an identity that no stored session has is
    returned waiting, without participants or messages, and reading that
    identity afterwards gives the same session with its creation time to
    the millisecond; every session that could be read before still reads
    the same. *)
Theorem created_session_is_readable
  (fresh : N) (now : datetime) (session_data : SessionCreate) (w : World) :
  (forall s, In s (interview_sessions w) -> session_id s <> str_uuid fresh) ->
  exists session_obj w',
    create_session fresh now session_data w = (Return session_obj, w')
    /\ session_id session_obj = str_uuid fresh
    /\ status session_obj = "waiting"
    /\ candidate_id session_obj = None
    /\ hr_id session_obj = None
    /\ messages session_obj = []
    /\ sign_language session_obj = sc_sign_language session_data
    /\ get_session (str_uuid fresh) w' = (Return (stored_session session_obj), w')
    /\ (forall sid session,
          find_session (JStr sid) w = Some session ->
          find_session (JStr sid) w' = Some session).
Proof.
  intros Hfresh. pose proof (absent_session _ w Hfresh) as Hnone.
  unfold create_session. generalize dependent (str_uuid fresh). intros id _ Hnone.
  do 2 eexists. split; [reflexivity|].
  cbn [session_id status candidate_id hr_id messages sign_language]. repeat split.
  - apply get_session_returns. unfold find_session in *.
    cbn [interview_sessions set_interview_sessions].
    rewrite (find_app_none _ _ _ Hnone). cbn [stored_session session_id].
    now rewrite bson_match_str, String.eqb_refl.
  - intros sid session Hfound. unfold find_session in *.
    cbn [interview_sessions set_interview_sessions]. now apply find_app_some.
Qed.

(** X20: a user created under an identity that no stored user has is
    returned without a session, and reading that identity afterwards gives
    the same user with its creation time to the millisecond; a user that
    could be read before still reads the same. *)
Theorem created_user_is_readable
  (fresh : N) (now : datetime) (user_data : UserCreate) (w : World) :
  (forall u, In u (users w) -> user_id u <> str_uuid fresh) ->
  exists user_obj w',
    create_user fresh now user_data w = (Return user_obj, w')
    /\ user_id user_obj = str_uuid fresh
    /\ name user_obj = uc_name user_data
    /\ role user_obj = uc_role user_data
    /\ user_session_id user_obj = None
    /\ get_user (str_uuid fresh) w' = (Return (stored_user user_obj), w')
    /\ (forall uid user,
          fst (get_user uid w) = Return user -> fst (get_user uid w') = Return user).
Proof.
  intros Hfresh. unfold create_user. generalize dependent (str_uuid fresh).
  intros id Hfresh.
  assert (Hnone : find (fun u => String.eqb id (user_id u)) (users w) = None).
  { apply find_all_false. intros u Hu. apply String.eqb_neq.
    intros E. now apply (Hfresh u Hu). }
  do 2 eexists. split; [reflexivity|]. cbn [user_id name role user_session_id].
  repeat split.
  - unfold get_user, find_one_user, bind, read. cbn [users set_users].
    rewrite (find_app_none _ _ _ Hnone). cbn [stored_user user_id].
    now rewrite String.eqb_refl.
  - intros uid user Huser. apply get_user_found in Huser. apply get_user_found.
    cbn [users set_users]. now apply find_app_some.
Qed.

(** ** What the fan-out touches *)

(** What one turn of the [for] loop can change, for either kind of
    payload and whether it returns or raises. *)
Lemma deliver_effect (message : payload) (participant_id : option string) (w : World) :
  active_connections (snd (deliver message participant_id w)) = active_connections w
  /\ interview_sessions (snd (deliver message participant_id w)) = interview_sessions w
  /\ users (snd (deliver message participant_id w)) = users w
  /\ (forall h, client_state (websocket_at (snd (deliver message participant_id w)) h)
                = client_state (websocket_at w h))
  /\ (forall h, (forall p, participant_id = Some p -> active_connections w !! p <> Some h) ->
                websocket_at (snd (deliver message participant_id w)) h = websocket_at w h).
Proof.
  unfold deliver. destruct participant_id as [p|]; [|now repeat split].
  destruct (truthy_str (Some p)); [|now repeat split].
  unfold bind, read.
  destruct (active_connections w !! p) as [h0|] eqn:Hentry; [|now repeat split].
  destruct (decide _); [|now repeat split].
  destruct message as [m|value]; simpl; [now repeat split|].
  repeat split; intros h; unfold websocket_at; simpl.
  - destruct (decide (h0 = h)) as [->|Hne];
      [now rewrite lookup_insert_eq | now rewrite lookup_insert_ne].
  - intros Hh. rewrite lookup_insert_ne; [reflexivity|].
    intros ->. now apply (Hh p eq_refl).
Qed.

(** X21: a fan-out writes only to the channels registered for the
    candidate or the interviewer of the session.  Any other channel is left
    exactly as it was, and the fan-out changes neither the registry, nor
    the session collection, nor the connection state of any channel. *)
Theorem fan_out_reaches_participants_only
  (message : payload) (q : json) (w : World) (h : nat) :
  (forall session p,
     find_session q w = Some session ->
     candidate_id session = Some p \/ hr_id session = Some p ->
     active_connections w !! p <> Some h) ->
  websocket_at (snd (send_to_session message q w)) h = websocket_at w h
  /\ active_connections (snd (send_to_session message q w)) = active_connections w
  /\ interview_sessions (snd (send_to_session message q w)) = interview_sessions w
  /\ (forall h', client_state (websocket_at (snd (send_to_session message q w)) h')
                 = client_state (websocket_at w h')).
Proof.
  intros Hothers. unfold send_to_session.
  destruct (query_error q) as [e|] eqn:Hq;
    [unfold bind; rewrite (find_one_session_refused q e w Hq); now repeat split|].
  rewrite (find_one_session_accepted q Hq). unfold bind, read.
  destruct (find_session q w) as [session|] eqn:Hfound; [|now repeat split].
  cbn [for_each]. unfold bind.
  destruct (deliver_effect message (candidate_id session) w) as (R1 & S1 & _ & C1 & O1).
  specialize (O1 h (fun p Hp => Hothers session p eq_refl (or_introl Hp))).
  destruct (deliver message (candidate_id session) w) as [[[]|ex] w1]; simpl in *;
    [|now repeat split].
  destruct (deliver_effect message (hr_id session) w1) as (R2 & S2 & _ & C2 & O2).
  assert (Hh : forall p, hr_id session = Some p -> active_connections w1 !! p <> Some h)
    by (intros p Hp; rewrite R1; exact (Hothers session p eq_refl (or_intror Hp))).
  specialize (O2 h Hh).
  destruct (deliver message (hr_id session) w1) as [[[]|ex] w2]; simpl in *;
    repeat split; try congruence; intros h'; now rewrite C2, C1.
Qed.

(** X22: the participants are a list of two slots, not a set.  An identity
    that holds both roles of a session and has a connected channel is
    handed every live envelope of that session twice. *)
Theorem both_roles_receive_twice
  (value q : json) (p : string) (h : nat) (w : World) (session : InterviewSession) :
  find_session q w = Some session ->
  candidate_id session = Some p ->
  hr_id session = Some p ->
  p <> "" ->
  active_connections w !! p = Some h ->
  client_state (websocket_at w h) = CONNECTED ->
  exists w',
    send_to_session (Envelope value) q w = (Return tt, w')
    /\ sent (websocket_at w' h) = sent (websocket_at w h) ++ [Json value; Json value].
Proof.
  intros Hfound Hcand Hhr Hp Hentry Hstate.
  unfold send_to_session.
  rewrite (find_one_session_accepted q (find_session_selects q w session Hfound)).
  unfold bind at 1, read. rewrite Hfound.
  cbn [for_each]. unfold bind.
  destruct (deliver_sent value (candidate_id session) w)
    as (w1 & -> & Hreg1 & Hstate1 & _ & Hhit1).
  destruct (deliver_sent value (hr_id session) w1)
    as (w2 & -> & _ & _ & _ & Hhit2).
  exists w2. split; [reflexivity|].
  rewrite (Hhit2 p h Hhr Hp), (Hhit1 p h Hcand Hp Hentry Hstate).
  - now rewrite <- app_assoc.
  - now rewrite Hreg1.
  - now rewrite Hstate1.
Qed.

(** ** The live endpoint and the store *)

Lemma loop_body_keeps_users websocket f : keeps users (loop_body websocket f).
Proof.
  unfold loop_body, receive_text, json_loads, py_get, send_text, send_to_session,
    find_one_session, deliver, json_dumps, send_text, update_websocket.
  keeps_auto.
Qed.

Lemma receive_loop_keeps_users websocket frames : keeps users (receive_loop websocket frames).
Proof.
  induction frames; simpl; keeps_auto. apply loop_body_keeps_users.
Qed.

Lemma websocket_endpoint_keeps_users websocket uid frames :
  keeps users (websocket_endpoint websocket uid frames).
Proof.
  unfold websocket_endpoint, connect, accept, update_websocket. keeps_auto.
  unfold guarded_loop. apply keeps_try_except.
  - apply receive_loop_keeps_users.
  - intros e h. destruct e; try discriminate. intros [= <-].
    unfold disconnect. keeps_auto.
Qed.

(** X23: nothing that happens on a live channel is persisted.  Whatever
    frames arrive, and whether the endpoint goes on, returns or raises, the
    session collection (the message sequences included) and the user
    collection are as they were when the channel was opened. *)
Theorem live_frames_are_never_stored
  (websocket : nat) (uid : string) (frames : list frame) (w : World) :
  interview_sessions (snd (websocket_endpoint websocket uid frames w)) = interview_sessions w
  /\ users (snd (websocket_endpoint websocket uid frames w)) = users w.
Proof.
  split; [apply websocket_endpoint_keeps_sessions | apply websocket_endpoint_keeps_users].
Qed.

(** X24: a frame that is JSON but not an object (an array, a string, a
    number, a boolean, null) ends the endpoint with an [AttributeError]:
    nothing is answered, the frames behind it are never read, and the
    identity keeps its registry entry. *)
Theorem non_object_frame_ends_endpoint
  (websocket : nat) (uid : string) (value : json) (rest : list frame) (w : World) :
  (forall items, value <> JObj items) ->
  exists w',
    websocket_endpoint websocket uid (Text (Json value) :: rest) w = (Raise AttributeError, w')
    /\ active_connections w' !! uid = Some websocket
    /\ sent (websocket_at w' websocket) = sent (websocket_at w websocket).
Proof.
  intros Hvalue.
  destruct (connect_spec websocket uid w) as (w1 & Hc & Hreg & Hh & _).
  exists w1. split.
  - unfold websocket_endpoint, bind. rewrite Hc.
    now apply guarded_loop_not_an_object.
  - rewrite Hreg, Hh. split; [apply lookup_insert_eq | reflexivity].
Qed.

(** ** Status checks *)

(** X25: the status listing returns the stored checks in insertion order
    but never more than a thousand.  While fewer than a thousand are
    stored, a newly created check appears at the end of the listing, with
    its timestamp to the millisecond; from the thousandth on, a new check
    is stored but the listing does not change. *)
Theorem status_listing_is_capped
  (fresh : N) (now : datetime) (input : StatusCheckCreate) (status_checks : list StatusCheck) :
  length (get_status_checks status_checks) <= 1000
  /\ (length status_checks < 1000 ->
      get_status_checks (snd (create_status_check fresh now input status_checks))
      = status_checks ++ [stored_status (fst (create_status_check fresh now input status_checks))])
  /\ (1000 <= length status_checks ->
      get_status_checks (snd (create_status_check fresh now input status_checks))
      = get_status_checks status_checks).
Proof.
  unfold get_status_checks, create_status_check. cbn [fst snd].
  rewrite !map_id. split; [apply firstn_le_length|]. split; intros Hlen.
  - apply firstn_all2. rewrite length_app. simpl. lia.
  - rewrite firstn_app. replace (1000 - length status_checks) with 0 by lia.
    now rewrite firstn_O, app_nil_r.
Qed.

End Properties.

(** * The properties on the sample history *)

#[local] Existing Instance exact_store.

Example sample_world_sessions : interview_sessions sample_world = [sample_session].
Proof. reflexivity. Qed.

Example sample_world_registry :
  active_connections sample_world !! "u1" = Some 0
  /\ active_connections sample_world !! "u2" = Some 1.
Proof. split; reflexivity. Qed.

(** Scenario A: a new session waits; it still waits once the candidate has
    joined, and is active once the interviewer has joined too. *)
Example scenario_a :
  let w0 := run [PostSessions 1%N 0%Z {| sc_sign_language := "ASL" |}] initial_world in
  let '(answer1, w1) := join_session sample_sid "u1" "candidate" w0 in
  let '(answer2, w2) := join_session sample_sid "u2" "hr" w1 in
  option_map status (find_session (JStr sample_sid) w0) = Some "waiting"
  /\ answer1 = Return {| jr_message := "Joined session successfully"; jr_status := "waiting" |}
  /\ option_map status (find_session (JStr sample_sid) w1) = Some "waiting"
  /\ answer2 = Return {| jr_message := "Joined session successfully"; jr_status := "active" |}
  /\ option_map status (find_session (JStr sample_sid) w2) = Some "active".
Proof. repeat split; reflexivity. Qed.

(** Scenario C: reading an unknown user or session is a not-found error. *)
Example scenario_c :
  fst (get_user "nobody" sample_world) = Raise (HTTPException 404 "User not found")
  /\ fst (get_session "nothing" sample_world) = Raise (HTTPException 404 "Session not found").
Proof. split; reflexivity. Qed.

(** A live envelope for the sample session reaches both channels, the
    sender's included. *)
Example live_envelope_reaches_both :
  let w := snd (loop_body 0 (Text (Json (JObj sample_envelope))) sample_world) in
  sent (websocket_at w 0) = [Json (JObj sample_envelope)]
  /\ sent (websocket_at w 1) = [Json (JObj sample_envelope)].
Proof. split; reflexivity. Qed.

(** A persisted message for the sample session is stored, but its fan-out
    stops at [json.dumps]: the endpoint raises and nothing is sent. *)
Example persisted_message_fan_out_raises :
  let '(answer, w) := send_message sample_sid (sample_message "hello") sample_world in
  answer = Raise TypeError
  /\ option_map messages (find_session (JStr sample_sid) w)
     = Some [stored_message (sample_message "hello")]
  /\ sent (websocket_at w 0) = [] /\ sent (websocket_at w 1) = [].
Proof. repeat split; reflexivity. Qed.

Lemma status_is_active_iff_both_joined_witness :
  Forall joins_with_identity sample_history
  /\ fst (get_session sample_sid (run sample_history initial_world)) = Return sample_session
  /\ (status sample_session = "active"
      <-> candidate_id sample_session <> None /\ hr_id sample_session <> None).
Proof.
  assert (H1 : Forall joins_with_identity sample_history)
    by (repeat constructor; discriminate).
  assert (H2 : fst (get_session sample_sid (run sample_history initial_world))
               = Return sample_session) by reflexivity.
  split; [exact H1|]. split; [exact H2|].
  exact (proj1 (status_is_active_iff_both_joined sample_history sample_sid sample_session H1 H2)).
Defined.

(** C1, as stated, fails: after the interviewer joined under the empty
    identity and the candidate under "u1", the session read back has both
    identities non-null while its status is "waiting", not "active". *)
Lemma empty_identity_join_breaks_status_rule :
  exists session,
    get_session sample_sid (run anonymous_history initial_world)
    = (Return session, run anonymous_history initial_world)
    /\ candidate_id session <> None
    /\ hr_id session <> None
    /\ status session = "waiting"
    /\ status session <> "active".
Proof.
  exists {| session_id := sample_sid; candidate_id := Some "u1"; hr_id := Some "";
            status := "waiting"; sign_language := "ASL"; created_at := 0%Z; messages := [] |}.
  repeat split; simpl; discriminate.
Qed.

Lemma persisted_messages_round_trip_witness :
  get_session sample_sid sample_world = (Return sample_session, sample_world)
  /\ exists session',
       fst (get_session sample_sid
              (run [PostMessages sample_sid (sample_message "first");
                    PostJoin sample_sid "u3" "hr";
                    PostMessages sample_sid (sample_message "second")] sample_world))
       = Return session'
       /\ map content (messages session') = ["first"; "second"].
Proof.
  assert (H : get_session sample_sid sample_world = (Return sample_session, sample_world))
    by reflexivity.
  split; [exact H|].
  destruct (persisted_messages_round_trip sample_sid
              [PostMessages sample_sid (sample_message "first");
               PostJoin sample_sid "u3" "hr";
               PostMessages sample_sid (sample_message "second")]
              sample_world sample_session H) as (session' & Hread & Hmessages & _).
  exists session'. split; [now rewrite Hread | now rewrite Hmessages].
Defined.

Lemma message_envelope_is_fanned_out_witness :
  dict_get "type" sample_envelope = Some (JStr "message")
  /\ participants_of sample_sid sample_world = {["u1"; "u2"]}
  /\ (exists targets,
        loop_body 0 (Text (Json (JObj sample_envelope))) sample_world
        = for_each targets (send_personal_message (Json (JObj sample_envelope))) sample_world
        /\ (forall p, In p targets <-> p ∈ participants_of sample_sid sample_world))
  /\ (exists earlier later,
        sent (websocket_at
                (snd (loop_body 0 (Text (Json (JObj sample_envelope))) sample_world)) 0)
        = sent (websocket_at sample_world 0) ++ earlier ++ Json (JObj sample_envelope) :: later)
  /\ (exists earlier later,
        sent (websocket_at
                (snd (loop_body 0 (Text (Json (JObj sample_envelope))) sample_world)) 1)
        = sent (websocket_at sample_world 1) ++ earlier ++ Json (JObj sample_envelope) :: later).
Proof.
  assert (H : dict_get "type" sample_envelope = Some (JStr "message")) by reflexivity.
  assert (Hset : participants_of sample_sid sample_world = {["u1"; "u2"]})
    by (apply set_eq; intros p; change (participants_of sample_sid sample_world)
          with (list_to_set ["u1"; "u2"] : gset string); set_solver).
  assert (H1 : "u1" ∈ participants_of sample_sid sample_world) by (rewrite Hset; set_solver).
  assert (H2 : "u2" ∈ participants_of sample_sid sample_world) by (rewrite Hset; set_solver).
  destruct (message_envelope_is_fanned_out sample_history 0 sample_envelope H)
    as (Hsends & _ & Hreach).
  repeat split; try assumption.
  - exact (Hsends sample_sid eq_refl eq_refl).
  - exact (Hreach sample_sid "u1" 0 eq_refl eq_refl H1 eq_refl eq_refl).
  - exact (Hreach sample_sid "u2" 1 eq_refl eq_refl H2 eq_refl eq_refl).
Defined.

(** C3, as stated, fails: a "message" envelope may carry any JSON value as
    [session_id], and the value goes to the store unchecked.  For the
    integer 2^64 the lookup raises the driver's [OverflowError]: the turn is
    no sequence of registry sends (those never raise), and the endpoint
    ends. *)
Lemma oversized_session_id_is_not_fanned_out :
  dict_get "type" oversized_envelope = Some (JStr "message")
  /\ dict_get "session_id" oversized_envelope = Some (JInt (2 ^ 64))
  /\ loop_body 0 (Text (Json (JObj oversized_envelope))) sample_world
     = (Raise OverflowError, sample_world)
  /\ ~ (exists targets,
          loop_body 0 (Text (Json (JObj oversized_envelope))) sample_world
          = for_each targets (send_personal_message (Json (JObj oversized_envelope)))
              sample_world)
  /\ guarded_loop 0 "u1"
       [Text (Json (JObj oversized_envelope)); Text (Json (JObj [("type", JStr "ping")]))]
       sample_world
     = (Raise OverflowError, sample_world).
Proof.
  assert (Hturn : loop_body 0 (Text (Json (JObj oversized_envelope))) sample_world
                  = (Raise OverflowError, sample_world)) by reflexivity.
  repeat split; try reflexivity.
  intros [targets Hsends].
  pose proof (for_each_send_returns targets (Json (JObj oversized_envelope)) sample_world)
    as Hreturns.
  rewrite <- Hsends, Hturn in Hreturns. discriminate.
Qed.

Lemma unhandled_object_frames_are_swallowed_witness :
  dict_get "type" sample_envelope <> Some (JStr "ping")
  /\ query_error (default JNull (dict_get "session_id" sample_envelope)) = None
  /\ (forall session p,
        find_session (default JNull (dict_get "session_id" sample_envelope)) joined_world
        = Some session ->
        candidate_id session = Some p \/ hr_id session = Some p ->
        unavailable joined_world p)
  /\ find_session (JStr sample_sid) joined_world = Some sample_session
  /\ guarded_loop 0 "u1"
       [Text (Json (JObj sample_envelope)); Text (Json (JObj [("type", JStr "ping")]))]
       joined_world
     = guarded_loop 0 "u1" [Text (Json (JObj [("type", JStr "ping")]))] joined_world.
Proof.
  assert (H1 : dict_get "type" sample_envelope <> Some (JStr "ping"))
    by (simpl; discriminate).
  assert (H2 : query_error (default JNull (dict_get "session_id" sample_envelope)) = None)
    by reflexivity.
  assert (H3 : forall session p,
            find_session (default JNull (dict_get "session_id" sample_envelope)) joined_world
            = Some session ->
            candidate_id session = Some p \/ hr_id session = Some p ->
            unavailable joined_world p).
  { intros session p _ _ websocket Hentry.
    change (active_connections joined_world) with (∅ : gmap string nat) in Hentry.
    rewrite lookup_empty in Hentry. discriminate. }
  assert (H4 : find_session (JStr sample_sid) joined_world = Some sample_session)
    by reflexivity.
  repeat (split; [assumption|]).
  apply (unhandled_object_frames_are_swallowed 0 "u1" sample_envelope
           [Text (Json (JObj [("type", JStr "ping")]))] joined_world H1).
  right. right. split; assumption.
Defined.

(** C5, as stated, fails in two ways.  A text that is not JSON is not
    swallowed: the endpoint ends with the decoding error and the ping that
    follows is never read, so no pong is sent.  Neither is a "message"
    whose session id names no stored session when the store refuses the
    value: for the integer 2^64 the lookup raises and the endpoint ends. *)
Lemma malformed_frames_are_not_swallowed :
  guarded_loop 0 "u1"
    [Text (NotJson "{"); Text (Json (JObj [("type", JStr "ping")]))] sample_world
  = (Raise JSONDecodeError, sample_world)
  /\ guarded_loop 0 "u1"
       [Text (Json (JObj oversized_envelope)); Text (Json (JObj [("type", JStr "ping")]))]
       sample_world
     = (Raise OverflowError, sample_world)
  /\ find_session (JInt (2 ^ 64)) sample_world = None
  /\ sent (websocket_at sample_world 0) = []
  /\ guarded_loop 0 "u1" [Text (Json (JObj [("type", JStr "ping")]))] sample_world
     <> (Raise JSONDecodeError, sample_world)
  /\ guarded_loop 0 "u1" [Text (Json (JObj [("type", JStr "ping")]))] sample_world
     <> (Raise OverflowError, sample_world).
Proof. repeat split; discriminate. Qed.


Lemma send_to_unavailable_identity_is_dropped_witness :
  active_connections sample_world !! "u3" = None
  /\ send_personal_message (Json pong) "u3" sample_world = (Return tt, sample_world).
Proof.
  assert (H : active_connections sample_world !! "u3" = None) by reflexivity.
  split; [exact H|].
  exact (send_to_unavailable_identity_is_dropped (Json pong) "u3" sample_world (or_introl H)).
Defined.


Lemma disconnect_twice_is_disconnect_once_witness :
  active_connections sample_world !! "u3" = None
  /\ disconnect "u3" sample_world = (Return tt, sample_world)
  /\ disconnect "u1" (snd (disconnect "u1" sample_world))
     = (Return tt, snd (disconnect "u1" sample_world)).
Proof.
  assert (H : active_connections sample_world !! "u3" = None) by reflexivity.
  split; [exact H|]. split.
  - exact (proj2 (proj2 (disconnect_twice_is_disconnect_once "u3" sample_world)) H).
  - exact (proj1 (proj2 (disconnect_twice_is_disconnect_once "u1" sample_world))).
Defined.

Lemma message_to_missing_session_is_acknowledged_witness :
  (forall s, In s (interview_sessions sample_world) -> session_id s <> "missing")
  /\ send_message "missing" (sample_message "hello") sample_world
     = (Return "Message sent successfully", sample_world).
Proof.
  assert (H : forall s, In s (interview_sessions sample_world) -> session_id s <> "missing")
    by (intros s [<-|[]]; discriminate).
  split; [exact H|].
  exact (proj1 (message_to_missing_session_is_acknowledged
                  "missing" (sample_message "hello") sample_world H)).
Defined.

(** * The further properties on the sample states *)

Lemma last_connection_wins_witness :
  0 <> 1
  /\ exists w',
       (connect 0 "u1" ;; connect 1 "u1" ;; send_personal_message (Json pong) "u1") initial_world
       = (Return tt, w')
       /\ active_connections w' !! "u1" = Some 1.
Proof.
  assert (H : 0 <> 1) by discriminate. split; [exact H|].
  destruct (last_connection_wins 0 1 "u1" (Json pong) initial_world H) as (w' & Hrun & Hreg & _).
  exists w'. now split.
Defined.

Lemma stale_disconnect_unregisters_live_channel_witness :
  0 <> 1
  /\ exists w',
       (websocket_endpoint 0 "u1" [] ;; websocket_endpoint 1 "u1" [] ;;
        guarded_loop 0 "u1" [Disconnect]) initial_world = (Return Finished, w')
       /\ client_state (websocket_at w' 1) = CONNECTED
       /\ active_connections w' !! "u1" = None.
Proof.
  assert (H : 0 <> 1) by discriminate. split; [exact H|].
  destruct (stale_disconnect_unregisters_live_channel 0 1 "u1" (Json pong) initial_world H)
    as (w' & Hrun & Hstate & Hreg & _).
  exists w'. now repeat split.
Defined.

Lemma join_unknown_session_is_not_found_witness :
  (forall s, In s (interview_sessions sample_world) -> session_id s <> "missing")
  /\ join_session "missing" "u1" "candidate" sample_world
     = (Raise (HTTPException 404 "Session not found"), sample_world).
Proof.
  assert (H : forall s, In s (interview_sessions sample_world) -> session_id s <> "missing")
    by (intros s [<-|[]]; discriminate).
  split; [exact H|].
  exact (join_unknown_session_is_not_found "missing" "u1" "candidate" sample_world H).
Defined.

Lemma join_answer_is_stored_status_witness :
  Forall joins_with_identity
    [PostSessions 1%N 0%Z {| sc_sign_language := "ASL" |}; PostJoin sample_sid "u1" "candidate"]
  /\ ("hr" = "candidate" \/ "hr" = "hr")
  /\ join_session sample_sid "u2" "hr"
       (run [PostSessions 1%N 0%Z {| sc_sign_language := "ASL" |};
             PostJoin sample_sid "u1" "candidate"] initial_world)
     = (Return {| jr_message := "Joined session successfully"; jr_status := "active" |},
        joined_world)
  /\ exists session,
       find_session (JStr sample_sid) joined_world = Some session
       /\ status session = "active".
Proof.
  assert (H1 : Forall joins_with_identity
                 [PostSessions 1%N 0%Z {| sc_sign_language := "ASL" |};
                  PostJoin sample_sid "u1" "candidate"])
    by (repeat constructor; discriminate).
  assert (H2 : "hr" = "candidate" \/ "hr" = "hr") by now right.
  assert (H3 : join_session sample_sid "u2" "hr"
                 (run [PostSessions 1%N 0%Z {| sc_sign_language := "ASL" |};
                       PostJoin sample_sid "u1" "candidate"] initial_world)
               = (Return {| jr_message := "Joined session successfully"; jr_status := "active" |},
                  joined_world)) by reflexivity.
  repeat (split; [assumption|]).
  exact (join_answer_is_stored_status _ _ _ _ _ _ H1 H2 H3).
Defined.

Lemma join_with_other_role_changes_no_session_witness :
  "observer" <> "candidate" /\ "observer" <> "hr"
  /\ find_session (JStr sample_sid) sample_world = Some sample_session
  /\ exists w',
       join_session sample_sid "u9" "observer" sample_world
       = (Return {| jr_message := "Joined session successfully"; jr_status := "waiting" |}, w')
       /\ interview_sessions w' = interview_sessions sample_world.
Proof.
  assert (H1 : "observer" <> "candidate") by discriminate.
  assert (H2 : "observer" <> "hr") by discriminate.
  assert (H3 : find_session (JStr sample_sid) sample_world = Some sample_session)
    by reflexivity.
  repeat (split; [assumption|]).
  destruct (join_with_other_role_changes_no_session
              sample_sid "u9" "observer" sample_world sample_session H1 H2 H3)
    as (w' & Hjoin & Hsessions & _).
  exists w'. now split.
Defined.

Lemma join_overwrites_slot_witness :
  ("candidate" = "candidate" \/ "candidate" = "hr")
  /\ find_session (JStr sample_sid) sample_world = Some sample_session
  /\ exists session',
       find_session (JStr sample_sid)
         (snd (join_session sample_sid "u9" "candidate" sample_world)) = Some session'
       /\ candidate_id session' = Some "u9"
       /\ hr_id session' = Some "u2".
Proof.
  assert (H1 : "candidate" = "candidate" \/ "candidate" = "hr") by now left.
  assert (H2 : find_session (JStr sample_sid) sample_world = Some sample_session)
    by reflexivity.
  repeat (split; [assumption|]).
  destruct (join_overwrites_slot sample_sid "u9" "candidate" sample_world sample_session H1 H2)
    as (answer & w' & session' & Hjoin & Hfound & Hcand & _).
  exists session'. rewrite Hjoin. split; [exact Hfound|]. exact (Hcand eq_refl).
Defined.

Lemma join_records_session_on_user_witness :
  join_session sample_sid sample_uid "candidate" fresh_world
  = (Return {| jr_message := "Joined session successfully"; jr_status := "waiting" |},
     snd (join_session sample_sid sample_uid "candidate" fresh_world))
  /\ fst (get_user sample_uid fresh_world) = Return sample_user
  /\ fst (get_user sample_uid (snd (join_session sample_sid sample_uid "candidate" fresh_world)))
     = Return (apply_user_session sample_sid sample_user).
Proof.
  assert (H1 : join_session sample_sid sample_uid "candidate" fresh_world
               = (Return {| jr_message := "Joined session successfully";
                            jr_status := "waiting" |},
                  snd (join_session sample_sid sample_uid "candidate" fresh_world)))
    by reflexivity.
  assert (H2 : fst (get_user sample_uid fresh_world) = Return sample_user) by reflexivity.
  repeat (split; [assumption|]).
  exact (proj1 (join_records_session_on_user _ _ _ _ _ _ H1) sample_user H2).
Defined.

Lemma join_again_changes_nothing_witness :
  join_session sample_sid "u9" "hr" sample_world
  = (Return {| jr_message := "Joined session successfully"; jr_status := "active" |},
     snd (join_session sample_sid "u9" "hr" sample_world))
  /\ join_session sample_sid "u9" "hr" (snd (join_session sample_sid "u9" "hr" sample_world))
     = (Return {| jr_message := "Joined session successfully"; jr_status := "active" |},
        snd (join_session sample_sid "u9" "hr" sample_world)).
Proof.
  assert (H : join_session sample_sid "u9" "hr" sample_world
              = (Return {| jr_message := "Joined session successfully";
                           jr_status := "active" |},
                 snd (join_session sample_sid "u9" "hr" sample_world))) by reflexivity.
  split; [exact H|].
  exact (join_again_changes_nothing _ _ _ _ _ _ H).
Defined.

Lemma joins_commute_witness :
  "u1" <> "" /\ "u2" <> ""
  /\ interview_sessions
       (snd (join_session sample_sid "u2" "hr"
               (snd (join_session sample_sid "u1" "candidate" fresh_world))))
     = interview_sessions
         (snd (join_session sample_sid "u1" "candidate"
                 (snd (join_session sample_sid "u2" "hr" fresh_world)))).
Proof.
  assert (H1 : "u1" <> "") by discriminate.
  assert (H2 : "u2" <> "") by discriminate.
  repeat (split; [assumption|]).
  exact (proj1 (joins_commute sample_sid "u1" "u2" fresh_world H1 H2)).
Defined.

Lemma persisted_message_to_connected_participant_raises_witness :
  find_session (JStr sample_sid) sample_world = Some sample_session
  /\ (candidate_id sample_session = Some "u1" \/ hr_id sample_session = Some "u1")
  /\ "u1" <> ""
  /\ active_connections sample_world !! "u1" = Some 0
  /\ client_state (websocket_at sample_world 0) = CONNECTED
  /\ exists w' session',
       send_message sample_sid (sample_message "hello") sample_world = (Raise TypeError, w')
       /\ find_session (JStr sample_sid) w' = Some session'
       /\ messages session' = [stored_message (sample_message "hello")].
Proof.
  assert (H1 : find_session (JStr sample_sid) sample_world = Some sample_session)
    by reflexivity.
  assert (H2 : candidate_id sample_session = Some "u1" \/ hr_id sample_session = Some "u1")
    by now left.
  assert (H3 : "u1" <> "") by discriminate.
  assert (H4 : active_connections sample_world !! "u1" = Some 0) by reflexivity.
  assert (H5 : client_state (websocket_at sample_world 0) = CONNECTED) by reflexivity.
  repeat (split; [assumption|]).
  destruct (persisted_message_to_connected_participant_raises
              sample_sid "u1" 0 (sample_message "hello") sample_world sample_session
              H1 H2 H3 H4 H5) as (w' & session' & Hsend & Hfound & Hmessages & _).
  exists w', session'. now repeat split.
Defined.

Lemma persisted_message_without_listeners_is_stored_witness :
  find_session (JStr sample_sid) joined_world = Some sample_session
  /\ (forall p, candidate_id sample_session = Some p \/ hr_id sample_session = Some p ->
        p <> "" -> unavailable joined_world p)
  /\ exists w' session',
       send_message sample_sid (sample_message "hello") joined_world
       = (Return "Message sent successfully", w')
       /\ find_session (JStr sample_sid) w' = Some session'
       /\ messages session' = [stored_message (sample_message "hello")].
Proof.
  assert (H1 : find_session (JStr sample_sid) joined_world = Some sample_session)
    by reflexivity.
  assert (H2 : forall p, candidate_id sample_session = Some p \/ hr_id sample_session = Some p ->
                 p <> "" -> unavailable joined_world p).
  { intros p _ _ websocket Hentry.
    change (active_connections joined_world) with (∅ : gmap string nat) in Hentry.
    rewrite lookup_empty in Hentry. discriminate. }
  repeat (split; [assumption|]).
  destruct (persisted_message_without_listeners_is_stored
              sample_sid (sample_message "hello") joined_world sample_session H1 H2)
    as (w' & session' & Hsend & Hfound & Hmessages & _).
  exists w', session'. now repeat split.
Defined.

Lemma history_never_undoes_a_join_witness :
  get_session sample_sid sample_world = (Return sample_session, sample_world)
  /\ exists session',
       fst (get_session sample_sid
              (run [PostJoin sample_sid "" "hr"; WsFrame 0 "u1" Disconnect] sample_world))
       = Return session'
       /\ status session' = "active".
Proof.
  assert (H : get_session sample_sid sample_world = (Return sample_session, sample_world))
    by reflexivity.
  split; [exact H|].
  destruct (history_never_undoes_a_join sample_sid
              [PostJoin sample_sid "" "hr"; WsFrame 0 "u1" Disconnect]
              sample_world sample_session H) as (session' & Hread & Hstatus & _).
  exists session'. split; [now rewrite Hread | now apply Hstatus].
Defined.

Lemma session_identity_is_fixed_witness :
  get_session sample_sid sample_world = (Return sample_session, sample_world)
  /\ exists session',
       fst (get_session sample_sid
              (run [PostJoin sample_sid "u9" "hr";
                    PostMessages sample_sid (sample_message "hello")] sample_world))
       = Return session'
       /\ sign_language session' = "ASL".
Proof.
  assert (H : get_session sample_sid sample_world = (Return sample_session, sample_world))
    by reflexivity.
  split; [exact H|].
  destruct (session_identity_is_fixed sample_sid
              [PostJoin sample_sid "u9" "hr";
               PostMessages sample_sid (sample_message "hello")]
              sample_world sample_session H) as (session' & Hread & _ & Hlang & _).
  exists session'. split; [now rewrite Hread | exact Hlang].
Defined.

Lemma other_sessions_are_untouched_witness :
  sample_sid <> "other"
  /\ find_session (JStr sample_sid) (snd (join_session "other" "u9" "hr" sample_world))
     = find_session (JStr sample_sid) sample_world.
Proof.
  assert (H : sample_sid <> "other") by (vm_compute; discriminate).
  split; [exact H|].
  exact (proj1 (other_sessions_are_untouched
                  "other" sample_sid "u9" "hr" (sample_message "hello") sample_world H)).
Defined.

Lemma created_session_is_readable_witness :
  (forall s, In s (interview_sessions sample_world) -> session_id s <> str_uuid 2)
  /\ exists session_obj w',
       create_session 2 7%Z {| sc_sign_language := "BSL" |} sample_world
       = (Return session_obj, w')
       /\ get_session (str_uuid 2) w' = (Return (stored_session session_obj), w').
Proof.
  assert (H : forall s, In s (interview_sessions sample_world) -> session_id s <> str_uuid 2)
    by (intros s [<-|[]]; vm_compute; discriminate).
  split; [exact H|].
  destruct (created_session_is_readable 2 7%Z {| sc_sign_language := "BSL" |} sample_world H)
    as (session_obj & w' & Hcreate & _ & _ & _ & _ & _ & _ & Hread & _).
  exists session_obj, w'. now split.
Defined.

Lemma created_user_is_readable_witness :
  (forall u, In u (users sample_world) -> user_id u <> str_uuid 2)
  /\ exists user_obj w',
       create_user 2 7%Z {| uc_name := "Ada"; uc_role := "candidate" |} sample_world
       = (Return user_obj, w')
       /\ get_user (str_uuid 2) w' = (Return (stored_user user_obj), w').
Proof.
  assert (H : forall u, In u (users sample_world) -> user_id u <> str_uuid 2)
    by (intros u []).
  split; [exact H|].
  destruct (created_user_is_readable 2 7%Z {| uc_name := "Ada"; uc_role := "candidate" |}
              sample_world H)
    as (user_obj & w' & Hcreate & _ & _ & _ & _ & Hread & _).
  exists user_obj, w'. now split.
Defined.

Lemma fan_out_reaches_participants_only_witness :
  (forall session p,
     find_session (JStr sample_sid) sample_world = Some session ->
     candidate_id session = Some p \/ hr_id session = Some p ->
     active_connections sample_world !! p <> Some 5)
  /\ websocket_at
       (snd (send_to_session (Envelope (JObj sample_envelope)) (JStr sample_sid) sample_world)) 5
     = websocket_at sample_world 5.
Proof.
  assert (H : forall session p,
            find_session (JStr sample_sid) sample_world = Some session ->
            candidate_id session = Some p \/ hr_id session = Some p ->
            active_connections sample_world !! p <> Some 5).
  { intros session p Hfound Hrole.
    assert (E : session = sample_session)
      by (change (Some sample_session = Some session) in Hfound; congruence).
    subst session. destruct Hrole as [[= <-] | [= <-]]; vm_compute; discriminate. }
  split; [exact H|].
  exact (proj1 (fan_out_reaches_participants_only
                  (Envelope (JObj sample_envelope)) (JStr sample_sid) sample_world 5 H)).
Defined.

Lemma both_roles_receive_twice_witness :
  find_session (JStr sample_sid) solo_world = Some solo_session
  /\ candidate_id solo_session = Some "u1"
  /\ hr_id solo_session = Some "u1"
  /\ "u1" <> ""
  /\ active_connections solo_world !! "u1" = Some 0
  /\ client_state (websocket_at solo_world 0) = CONNECTED
  /\ exists w',
       send_to_session (Envelope (JObj sample_envelope)) (JStr sample_sid) solo_world
       = (Return tt, w')
       /\ sent (websocket_at w' 0) = [Json (JObj sample_envelope); Json (JObj sample_envelope)].
Proof.
  assert (H1 : find_session (JStr sample_sid) solo_world = Some solo_session) by reflexivity.
  assert (H2 : candidate_id solo_session = Some "u1") by reflexivity.
  assert (H3 : hr_id solo_session = Some "u1") by reflexivity.
  assert (H4 : "u1" <> "") by discriminate.
  assert (H5 : active_connections solo_world !! "u1" = Some 0) by reflexivity.
  assert (H6 : client_state (websocket_at solo_world 0) = CONNECTED) by reflexivity.
  repeat (split; [assumption|]).
  destruct (both_roles_receive_twice (JObj sample_envelope) (JStr sample_sid) "u1" 0
              solo_world solo_session H1 H2 H3 H4 H5 H6) as (w' & Hsend & Hsent).
  exists w'. split; [exact Hsend | exact Hsent].
Defined.

Lemma non_object_frame_ends_endpoint_witness :
  (forall items, JArr [] <> JObj items)
  /\ exists w',
       websocket_endpoint 7 "u7" [Text (Json (JArr [])); Text (Json (JObj [("type", JStr "ping")]))]
         sample_world = (Raise AttributeError, w')
       /\ active_connections w' !! "u7" = Some 7.
Proof.
  assert (H : forall items, JArr [] <> JObj items) by discriminate.
  split; [exact H|].
  destruct (non_object_frame_ends_endpoint 7 "u7" (JArr [])
              [Text (Json (JObj [("type", JStr "ping")]))] sample_world H)
    as (w' & Hrun & Hreg & _).
  exists w'. now split.
Defined.

Lemma status_listing_is_capped_witness :
  length ([] : list StatusCheck) < 1000
  /\ get_status_checks
       (snd (create_status_check 3 1700000000123456%Z {| scc_client_name := "probe" |} []))
     = [{| status_id := str_uuid 3; client_name := "probe";
           status_timestamp := 1700000000123000%Z |}].
Proof.
  assert (H : length ([] : list StatusCheck) < 1000) by (simpl; lia).
  split; [exact H|].
  exact (proj1 (proj2 (status_listing_is_capped 3 1700000000123456%Z
                         {| scc_client_name := "probe" |} [])) H).
Defined.
